(** * ADXL345 accelerometer acceptance test: a shallow embedding of ADXL345.py

    The Python script drives a test fixture (the [ZipTestBoard] of
    [zip_test_fwk]) over I2C, runs the sensor's self-test, commands three
    actuator motions and prints one verdict.  The embedding keeps the
    script's shape:

    - Python floats are IEEE binary64 values: Rocq's primitive [float];
    - a sample is a [dict] with the string keys ['x'], ['y'], ['z'],
      modelled as an association list in insertion order;
    - an exception is a value of [exn]; a statement sequence is a bind of
      a state-and-exception monad whose state is the tester object plus
      the trace of everything the script did to the outside world;
    - the fixture and the clock are not part of the script: they are an
      oracle ([world]) that answers each call from the trace so far. *)

From Stdlib Require Import ZArith List String Bool Lia Floats Uint63.
Import ListNotations.
Open Scope string_scope.
Open Scope list_scope.
Open Scope Z_scope.

Set Warnings "-inexact-float".

(* ------------------------------------------------------------------ *)
(** ** Module constants (ADXL345.py, lines 21-44) *)

Definition ADXL345_ADDRESS : Z := 0x53.

Definition REG_BW_RATE : Z := 0x2C.
Definition REG_POWER_CTL : Z := 0x2D.
Definition REG_DATA_FORMAT : Z := 0x31.
Definition REG_DATAX0 : Z := 0x32.

Definition BW_RATE_800HZ : Z := 0x0D.
Definition DATA_FORMAT_NORMAL : Z := 0x0B.
Definition DATA_FORMAT_SELF_TEST : Z := 0x8B.
Definition POWER_CTL_MEASURE : Z := 0x08.

Definition ACCEL_SCALE : float := 0.0039%float.

(** A Python [dict] with string keys, in insertion order. *)
Definition dict (A : Type) : Type := list (string * A).

Definition SELF_TEST_THRESHOLDS : dict (float * float) :=
  [ ("x", ((-1.2)%float, (-0.9)%float));
    ("y", ((-1.2)%float, (-0.9)%float));
    ("z", ((-1.0)%float, (-0.7)%float)) ].

(* ------------------------------------------------------------------ *)
(** ** Text, exceptions, outcomes *)

(** An f-string before rendering: literal pieces and formatted fields.
    [Fix2 v] is the field [{v:.2f}], [Repr v] the field [{v}] of a float,
    [Traceback e] the text [traceback.format_exc()] gives while [e] is
    being handled.  The exceptions are those deriving from [Exception];
    [BoardError] is an exception raised inside the fixture. *)
Inductive frag : Type :=
| Lit (s : string)
| Fix2 (v : float)
| Repr (v : float)
| Traceback (e : exn)
with exn : Type :=
| ValueError (msg : list frag)
| struct_error (msg : list frag)
| KeyError (key : string)
| TypeError (msg : list frag)
| AttributeError (msg : list frag)
| BoardError (descr : string).

Definition text : Type := list frag.

Inductive outcome (A : Type) : Type :=
| Return (a : A)
| Raise (e : exn).
Arguments Return {A} a.
Arguments Raise {A} e.

Definition obind {A B : Type} (o : outcome A) (k : A -> outcome B) : outcome B :=
  match o with
  | Return a => k a
  | Raise e => Raise e
  end.

Notation "'let?' x ':=' o 'in' k" := (obind o (fun x => k))
  (at level 10, x pattern, o at level 100, k at level 200).

(** [d[key]]: the first binding wins the lookup, a miss raises. *)
Fixpoint getitem {A : Type} (d : dict A) (key : string) : outcome A :=
  match d with
  | [] => Raise (KeyError key)
  | (k, v) :: rest => if String.eqb k key then Return v else getitem rest key
  end.

(* ------------------------------------------------------------------ *)
(** ** Decoding a raw sample (lines 115-116) *)

(** [bytes(data)] for a sequence of ints. *)
Definition is_byte (b : Z) : bool := (0 <=? b) && (b <? 256).

Definition bytes (data : list Z) : outcome (list Z) :=
  if forallb is_byte data then Return data
  else Raise (ValueError [Lit "bytes must be in range(0, 256)"]).

(** One ['<h'] field: two bytes, least significant first, two's complement. *)
Definition int_from_bytes_little (bs : list Z) : Z :=
  fold_right (fun b acc => b + 256 * acc) 0 bs.

Definition signed16 (u : Z) : Z := if u <? 32768 then u else u - 65536.

Definition unpack_h (bs : list Z) : Z := signed16 (int_from_bytes_little bs).

(** [struct.unpack('<hhh', buf)]. *)
Definition struct_unpack_hhh (buf : list Z) : outcome (Z * Z * Z) :=
  if Z.of_nat (List.length buf) =? 6 then
    Return (unpack_h (firstn 2 buf),
            unpack_h (firstn 2 (skipn 2 buf)),
            unpack_h (firstn 2 (skipn 4 buf)))
  else Raise (struct_error [Lit "unpack requires a buffer of 6 bytes"]).

(** The conversion Python applies to an int operand of [int * float];
    exact for every 16-bit count. *)
Definition float_of_int (n : Z) : float :=
  if n <? 0 then PrimFloat.opp (PrimFloat.of_uint63 (Uint63.of_Z (- n)))
  else PrimFloat.of_uint63 (Uint63.of_Z n).

(** Lines 115-116 of [_read_acceleration], once [data] is in hand. *)
Definition decode_acceleration (data : list Z) : outcome (dict float) :=
  let? buf := bytes data in
  let? (x, y, z) := struct_unpack_hhh buf in
  Return [ ("x", (float_of_int x * ACCEL_SCALE)%float);
           ("y", (float_of_int y * ACCEL_SCALE)%float);
           ("z", (float_of_int z * ACCEL_SCALE)%float) ].

(* ------------------------------------------------------------------ *)
(** ** The acceptance checks (lines 104-110 and 125-140) *)

(** [{axis: st_reading[axis] - baseline[axis] for axis in axes}] *)
Fixpoint delta_of (axes : list string) (st_reading baseline : dict float)
  : outcome (dict float) :=
  match axes with
  | [] => Return []
  | axis :: rest =>
      let? s := getitem st_reading axis in
      let? b := getitem baseline axis in
      let? tail := delta_of rest st_reading baseline in
      Return ((axis, (s - b)%float) :: tail)
  end.

Definition self_test_message (axis : string) (d min_thresh max_thresh : float) : text :=
  [ Lit "The self-test was failed on "; Lit axis;
    Lit " axis: difference of "; Fix2 d; Lit "g is not in [";
    Repr min_thresh; Lit ", "; Repr max_thresh; Lit "]g" ].

(** The [for] loop of lines 106-110 over [thresholds.items()]. *)
Fixpoint check_thresholds (items : dict (float * float)) (delta : dict float)
  : outcome unit :=
  match items with
  | [] => Return tt
  | (axis, (min_thresh, max_thresh)) :: rest =>
      let? d := getitem delta axis in
      if negb ((min_thresh <=? d)%float && (d <=? max_thresh)%float) then
        let? d' := getitem delta axis in
        Raise (ValueError (self_test_message axis d' min_thresh max_thresh))
      else check_thresholds rest delta
  end.

(** Lines 104-110: the delta and its comparison against the thresholds. *)
Definition self_test_evaluate (baseline st_reading : dict float) : outcome unit :=
  let? delta := delta_of ["x"; "y"; "z"] st_reading baseline in
  check_thresholds SELF_TEST_THRESHOLDS delta.

Definition _check_slow_climb (accel : dict float) : outcome unit :=
  let? y := getitem accel "y" in
  if negb ((-1.0 <=? y)%float && (y <=? 1.0)%float) then
    let? y' := getitem accel "y" in
    Raise (ValueError [Lit "Slow climb: y-axis "; Fix2 y'; Lit "g not in [-1, 1]g"])
  else
    let? z := getitem accel "z" in
    if negb ((6.0 <=? z)%float && (z <=? 8.0)%float) then
      let? z' := getitem accel "z" in
      Raise (ValueError [Lit "Slow climb: z-axis "; Fix2 z'; Lit "g not in [6, 8]g"])
    else Return tt.

(** [a and b] evaluates [b] only when [a] holds. *)
Definition _check_sharp_turn (accel : dict float) : outcome unit :=
  let? x := getitem accel "x" in
  let? both :=
    (if (5.0 <? x)%float then
       let? y := getitem accel "y" in Return (5.0 <? y)%float
     else Return false) in
  if negb both then
    let? x' := getitem accel "x" in
    let? y' := getitem accel "y" in
    Raise (ValueError [Lit "Sharp turn: X "; Fix2 x'; Lit "g or Y "; Fix2 y';
                       Lit "g not > 5g"])
  else Return tt.

Definition _check_quick_drop (accel : dict float) : outcome unit :=
  let? z := getitem accel "z" in
  if negb (z <? -8.0)%float then
    let? z' := getitem accel "z" in
    Raise (ValueError [Lit "Quick drop: Z axis "; Fix2 z'; Lit "g not < -8g"])
  else Return tt.

(** The dict literal [{'x': x, 'y': y, 'z': z}]. *)
Definition sample (x y z : float) : dict float := [("x", x); ("y", y); ("z", z)].

(* ------------------------------------------------------------------ *)
(** ** The outside world *)

(** What the script asks of the fixture: the constructor and the methods
    of [ZipTestBoard] it calls, with their arguments. *)
Inductive call : Type :=
| ZipTestBoard
| turn_on_ps (rail : string)
| i2c_setup (sda scl : string) (freq : Z)
| i2c_cmd (address : Z) (payload : list Z) (resp_len : option Z)
| actuator_move (config : string)
| turn_off_ps (rail : string).

(** Everything observable the script does, in order. *)
Inductive event : Type :=
| Board (c : call)
| Sleep (seconds : float)
| Clock
| Print (line : text).

(** The fixture answers a call by returning a value (a sequence of ints,
    which only [_read_acceleration] looks at) or by raising; the clock
    answers [time.time()].  Both may depend on all that happened before. *)
Inductive answer : Type :=
| Returns (value : list Z)
| Fails (descr : string).

Record world : Type := {
  reply : list event -> call -> answer;
  clock : list event -> float
}.

(** The [AccelerometerTester] object, with the trace of the run so far.
    [board] tells whether [self.board] holds a board (it is [None]
    otherwise). *)
Record tester : Type := {
  board : bool;
  start_time : option float;
  test_passed : bool;
  failure_reason : option text;
  trace : list event
}.

(** [AccelerometerTester()] in a world where nothing has happened yet. *)
Definition __init__ : tester :=
  {| board := false; start_time := None; test_passed := false;
     failure_reason := None; trace := [] |}.

Definition record (e : event) (s : tester) : tester :=
  {| board := board s; start_time := start_time s; test_passed := test_passed s;
     failure_reason := failure_reason s; trace := trace s ++ [e] |}.

Definition set_board (s : tester) : tester :=
  {| board := true; start_time := start_time s; test_passed := test_passed s;
     failure_reason := failure_reason s; trace := trace s |}.

Definition set_start_time (t : float) (s : tester) : tester :=
  {| board := board s; start_time := Some t; test_passed := test_passed s;
     failure_reason := failure_reason s; trace := trace s |}.

Definition set_test_passed (s : tester) : tester :=
  {| board := board s; start_time := start_time s; test_passed := true;
     failure_reason := failure_reason s; trace := trace s |}.

Definition set_failure_reason (r : text) (s : tester) : tester :=
  {| board := board s; start_time := start_time s; test_passed := test_passed s;
     failure_reason := Some r; trace := trace s |}.

(** ** The monad of the script: state, exceptions, and the world to ask *)

Definition M (A : Type) : Type := tester -> outcome A * tester.

Definition ret {A : Type} (a : A) : M A := fun s => (Return a, s).

Definition bind {A B : Type} (m : M A) (k : A -> M B) : M B :=
  fun s =>
    match m s with
    | (Return a, s') => k a s'
    | (Raise e, s') => (Raise e, s')
    end.

Definition lift {A : Type} (o : outcome A) : M A := fun s => (o, s).

Definition update (f : tester -> tester) : M unit := fun s => (Return tt, f s).

Declare Scope tester_scope.
Delimit Scope tester_scope with tester.
Notation "x <- m ;; k" := (bind m (fun x => k))
  (at level 61, m at next level, right associativity) : tester_scope.
Notation "m ;; k" := (bind m (fun _ => k))
  (at level 61, right associativity) : tester_scope.
Open Scope tester_scope.

(** [try: m / except Exception: handler] *)
Definition try_except (m : M unit) (handler : exn -> M unit) : M unit :=
  fun s =>
    match m s with
    | (Return a, s') => (Return a, s')
    | (Raise e, s') => handler e s'
    end.

(** [try: m / finally: fin]: [fin] always runs; what it raises replaces
    the outcome of [m]. *)
Definition try_finally (m : M unit) (fin : M unit) : M unit :=
  fun s =>
    match m s with
    | (r, s') =>
        match fin s' with
        | (Return _, s'') => (r, s'')
        | (Raise e, s'') => (Raise e, s'')
        end
    end.

(** [traceback.format_exc()] inside the handler of [e]. *)
Definition format_exc (e : exn) : text := [Traceback e].

(** The field [{self.failure_reason}] of an f-string. *)
Definition str_failure_reason (r : option text) : text :=
  match r with
  | None => [Lit "None"]
  | Some t => t
  end.

Section Script.

Variable W : world.

(** A method call on [self.board]; on [None] the attribute is missing. *)
Definition board_call (c : call) : M (list Z) :=
  fun s =>
    if board s then
      match reply W (trace s) c with
      | Returns value => (Return value, record (Board c) s)
      | Fails descr => (Raise (BoardError descr), record (Board c) s)
      end
    else (Raise (AttributeError [Lit "'NoneType' object has no attribute"]), s).

(** [self.board = ZipTestBoard()] *)
Definition new_board : M unit :=
  fun s =>
    match reply W (trace s) ZipTestBoard with
    | Returns _ => (Return tt, set_board (record (Board ZipTestBoard) s))
    | Fails descr => (Raise (BoardError descr), record (Board ZipTestBoard) s)
    end.

Definition time_time : M float :=
  fun s => (Return (clock W (trace s)), record Clock s).

Definition time_sleep (seconds : float) : M unit := update (record (Sleep seconds)).

Definition print (line : text) : M unit := update (record (Print line)).

Definition _read_acceleration : M (dict float) :=
  data <- board_call (i2c_cmd ADXL345_ADDRESS [REG_DATAX0] (Some 6)) ;;
  lift (decode_acceleration data).

Definition _configure_accelerometer : M unit :=
  board_call (i2c_cmd ADXL345_ADDRESS [REG_BW_RATE; BW_RATE_800HZ] None) ;;
  board_call (i2c_cmd ADXL345_ADDRESS [REG_DATA_FORMAT; DATA_FORMAT_NORMAL] None) ;;
  board_call (i2c_cmd ADXL345_ADDRESS [REG_POWER_CTL; POWER_CTL_MEASURE] None) ;;
  time_sleep 0.1.

Definition _perform_self_test : M unit :=
  board_call (i2c_cmd ADXL345_ADDRESS [REG_DATA_FORMAT; DATA_FORMAT_NORMAL] None) ;;
  time_sleep 0.1 ;;
  baseline <- _read_acceleration ;;
  board_call (i2c_cmd ADXL345_ADDRESS [REG_DATA_FORMAT; DATA_FORMAT_SELF_TEST] None) ;;
  time_sleep 0.1 ;;
  st_reading <- _read_acceleration ;;
  board_call (i2c_cmd ADXL345_ADDRESS [REG_DATA_FORMAT; DATA_FORMAT_NORMAL] None) ;;
  lift (self_test_evaluate baseline st_reading).

Definition _actuator_test (config : string) (check_func : dict float -> outcome unit)
  : M unit :=
  board_call (actuator_move config) ;;
  accel <- _read_acceleration ;;
  lift (check_func accel).

Definition _log_result : M unit :=
  now <- time_time ;;
  fun s =>
    match start_time s with
    | None => (Raise (TypeError [Lit "unsupported operand type(s) for -"]), s)
    | Some t0 =>
        let elapsed := (now - t0)%float in
        if test_passed s then
          print [Lit "TEST PASSED in "; Fix2 elapsed; Lit " sec"] s
        else
          print ([Lit "TEST FAILED in "; Fix2 elapsed; Lit " sec due to "]
                   ++ str_failure_reason (failure_reason s)) s
    end.

(** The [try] block of [run_test] (lines 58-71). *)
Definition try_block : M unit :=
  new_board ;;
  board_call (turn_on_ps "3V3") ;;
  board_call (i2c_setup "MCU_DIO1" "MCU_DIO2" 400000) ;;
  _configure_accelerometer ;;
  _perform_self_test ;;
  _actuator_test "slow_climb" _check_slow_climb ;;
  _actuator_test "sharp_turn" _check_sharp_turn ;;
  _actuator_test "quick_drop" _check_quick_drop ;;
  update set_test_passed.

(** The [finally] block of [run_test] (lines 75-80). *)
Definition finally_block : M unit :=
  _log_result ;;
  fun s =>
    if board s then
      try_except (board_call (turn_off_ps "3V3") ;; ret tt) (fun _ => ret tt) s
    else (Return tt, s).

Definition run_test : M unit :=
  t <- time_time ;;
  update (set_start_time t) ;;
  try_finally
    (try_except try_block
       (fun e => update (set_failure_reason (format_exc e))))
    finally_block.

(** The steps of the [try] block that can raise, in order, as a list:
    board construction, power-on, bus setup, configuration, self-test and
    the three motion checks. *)
Definition steps : list (M unit) :=
  [ new_board;
    board_call (turn_on_ps "3V3") ;; ret tt;
    board_call (i2c_setup "MCU_DIO1" "MCU_DIO2" 400000) ;; ret tt;
    _configure_accelerometer;
    _perform_self_test;
    _actuator_test "slow_climb" _check_slow_climb;
    _actuator_test "sharp_turn" _check_sharp_turn;
    _actuator_test "quick_drop" _check_quick_drop ].

(** Statements in sequence: the first exception ends the block. *)
Fixpoint block (stmts : list (M unit)) : M unit :=
  match stmts with
  | [] => ret tt
  | stmt :: rest => stmt ;; block rest
  end.

End Script.

(** [main()]: a fresh tester, one run. *)
Definition main (W : world) : outcome unit * tester := run_test W __init__.

(* ------------------------------------------------------------------ *)
(** ** What the statements below are phrased with *)

(** [d] lies in the closed band [[lo, hi]], by the float comparisons the
    script uses (a NaN lies in no band). *)
Definition in_band (lo hi d : float) : Prop :=
  (lo <=? d)%float = true /\ (d <=? hi)%float = true.

(** The signed 16-bit value of a little-endian byte pair, said the
    arithmetic way: the representative of [lo + 256 * hi] modulo [2^16]
    in [[-2^15, 2^15)]. *)
Definition twos_complement16 (lo hi : Z) : Z :=
  (lo + 256 * hi + 32768) mod 65536 - 32768.

Definition read_data : call := i2c_cmd ADXL345_ADDRESS [REG_DATAX0] (Some 6).

Definition write_register (register value : Z) : call :=
  i2c_cmd ADXL345_ADDRESS [register; value] None.

(** *** Classes of events, and what a trace shows *)

Definition is_actuator_move (e : event) : bool :=
  match e with Board (actuator_move _) => true | _ => false end.

Definition is_power_off (e : event) : bool :=
  match e with Board (turn_off_ps _) => true | _ => false end.

Definition is_print (e : event) : bool :=
  match e with Print _ => true | _ => false end.

Definition is_clock (e : event) : bool :=
  match e with Clock => true | _ => false end.

(** Events of the [try] block: no power-off, no print, no clock read. *)
Definition body_event (e : event) : bool :=
  negb (is_power_off e) && negb (is_print e) && negb (is_clock e).

(** Events of the steps before the first motion: no actuator either. *)
Definition still_event (e : event) : bool :=
  body_event e && negb (is_actuator_move e).

(** The lines printed along a trace, in order. *)
Fixpoint printed (tr : list event) : list text :=
  match tr with
  | [] => []
  | Print line :: rest => line :: printed rest
  | _ :: rest => printed rest
  end.

Definition count_power_off (tr : list event) : nat :=
  List.length (filter is_power_off tr).

(** [s'] is [s] after the events [evs]: the trace grew by them, a board
    once set stays set, and the verdict fields were left alone. *)
Record frame (s s' : tester) (evs : list event) : Prop := {
  frame_trace : trace s' = trace s ++ evs;
  frame_board : board s = true -> board s' = true;
  frame_start_time : start_time s' = start_time s;
  frame_test_passed : test_passed s' = test_passed s;
  frame_failure_reason : failure_reason s' = failure_reason s
}.

(** Every run of [m] only adds events of the class [P] and keeps the frame. *)
Definition emits {A : Type} (P : event -> bool) (m : M A) : Prop :=
  forall s r s', m s = (r, s') ->
    exists evs, frame s s' evs /\ forallb P evs = true.

(** *** The ends of a run *)

(** The tester on entry to the [try] block. *)
Definition started (W : world) : tester :=
  set_start_time (clock W []) (record Clock __init__).

(** The verdict line for a tester whose run took [elapsed] seconds. *)
Definition verdict (elapsed : float) (s : tester) : text :=
  if test_passed s then [Lit "TEST PASSED in "; Fix2 elapsed; Lit " sec"]
  else [Lit "TEST FAILED in "; Fix2 elapsed; Lit " sec due to "]
         ++ str_failure_reason (failure_reason s).

(** The tester the [finally] block leaves when entered in [s] with start
    time [t0]: the clock is read, the verdict printed, and the rail is
    switched off if there is a board. *)
Definition after_finally (W : world) (t0 : float) (s : tester) : tester :=
  let logged :=
    record (Print (verdict (clock W (trace s) - t0)%float s)) (record Clock s) in
  if board s then record (Board (turn_off_ps "3V3")) logged else logged.

(** Two worlds that differ at most in how they answer a power-off. *)
Definition same_but_power_off (W W' : world) : Prop :=
  (forall tr, clock W' tr = clock W tr) /\
  (forall tr c, is_power_off (Board c) = false -> reply W' tr c = reply W tr c).

(** *** The fixed protocol of a run *)

(** What the [try] block does to the outside world when nothing raises,
    in order (lines 58-69 with the bodies of the methods they call). *)
Definition protocol : list event :=
  [ Board ZipTestBoard;
    Board (turn_on_ps "3V3");
    Board (i2c_setup "MCU_DIO1" "MCU_DIO2" 400000);
    Board (write_register REG_BW_RATE BW_RATE_800HZ);
    Board (write_register REG_DATA_FORMAT DATA_FORMAT_NORMAL);
    Board (write_register REG_POWER_CTL POWER_CTL_MEASURE);
    Sleep 0.1;
    Board (write_register REG_DATA_FORMAT DATA_FORMAT_NORMAL);
    Sleep 0.1;
    Board read_data;
    Board (write_register REG_DATA_FORMAT DATA_FORMAT_SELF_TEST);
    Sleep 0.1;
    Board read_data;
    Board (write_register REG_DATA_FORMAT DATA_FORMAT_NORMAL);
    Board (actuator_move "slow_climb");
    Board read_data;
    Board (actuator_move "sharp_turn");
    Board read_data;
    Board (actuator_move "quick_drop");
    Board read_data ].

(** Every run of [m] adds a prefix of [evs] to the trace, and all of
    [evs] when it returns. *)
Definition plays {A : Type} (m : M A) (evs : list event) : Prop :=
  forall s r s', m s = (r, s') ->
    (exists n, trace s' = trace s ++ firstn n evs) /\
    (forall a, r = Return a -> trace s' = trace s ++ evs).

(** The sample the read at position [k] of the protocol yields: what the
    fixture returns there, decoded. *)
Definition reading (W : world) (k : nat) : outcome (dict float) :=
  match reply W (Clock :: firstn k protocol) read_data with
  | Returns data => decode_acceleration data
  | Fails descr => Raise (BoardError descr)
  end.

(** The fixture returns from the call at position [k] of the protocol
    (a position that holds no call counts as answered). *)
Definition answered (W : world) (k : nat) : bool :=
  match nth_error protocol k with
  | Some (Board c) =>
      match reply W (Clock :: firstn k protocol) c with
      | Returns _ => true
      | Fails _ => false
      end
  | _ => true
  end.

Definition fixture_answers (W : world) : bool :=
  forallb (answered W) (seq 0 (List.length protocol)).

(** Whether every motion along a trace is commanded with the sensor in
    normal mode: the last write of the data-format register before each
    [actuator_move] exists and has the self-test bit (bit 7) clear.
    [mode] is the self-test bit of the last such write so far. *)
Fixpoint moves_in_normal_mode_from (mode : option bool) (tr : list event) : bool :=
  match tr with
  | [] => true
  | Board (i2c_cmd _ [register; value] None) :: rest =>
      moves_in_normal_mode_from
        (if register =? REG_DATA_FORMAT then Some (Z.testbit value 7) else mode) rest
  | Board (actuator_move _) :: rest =>
      match mode with
      | Some false => moves_in_normal_mode_from mode rest
      | _ => false
      end
  | _ :: rest => moves_in_normal_mode_from mode rest
  end.

Definition moves_in_normal_mode (tr : list event) : bool :=
  moves_in_normal_mode_from None tr.

(** *** Floats and integers, text and lines *)

(** The value of the float [c] is exactly the integer [n] (and [c] is the
    positive zero when [n] is 0): read off the sign, mantissa and exponent
    of [c], with no rounding. *)
Definition float_equals_int (c : float) (n : Z) : bool :=
  match Prim2SF c with
  | S754_zero sign => negb sign && (n =? 0)
  | S754_finite sign m e =>
      let v := if sign then - Z.pos m else Z.pos m in
      if 0 <=? e then n =? v * 2 ^ e else n * 2 ^ (- e) =? v
  | _ => false
  end.

(** Whether a string holds a line break. *)
Fixpoint has_line_break (s : string) : bool :=
  match s with
  | EmptyString => false
  | String c rest => Ascii.eqb c (Ascii.ascii_of_nat 10) || has_line_break rest
  end.

(** Whether a text renders on one line.  The fields [{v:.2f}] and [{v}]
    of a float never hold a line break; the text of
    [traceback.format_exc()] always does: it is the header line
    [Traceback (most recent call last):], the stack entries and the line
    of the exception, each ended by a line break. *)
Definition single_line (t : text) : bool :=
  forallb (fun f =>
             match f with
             | Lit s => negb (has_line_break s)
             | Fix2 _ => true
             | Repr _ => true
             | Traceback _ => false
             end) t.

(** *** Counts and accelerations *)

(** The signed 16-bit counts, from -32768 to 32767. *)
Fixpoint counts_from (first : Z) (len : nat) : list Z :=
  match len with
  | O => []
  | S len' => first :: counts_from (first + 1) len'
  end.

Definition int16_counts : list Z := counts_from (-32768) (2 ^ 16).

(** The integer part of a float, toward zero (0 for a NaN or an infinity). *)
Definition Z_of_float (v : float) : Z :=
  match Prim2SF v with
  | S754_finite sign m e =>
      let z := Z.shiftl (Z.pos m) e in if sign then - z else z
  | _ => 0
  end.

(** Back from an acceleration to the count it came from: divide by the
    scale and round to the nearest integer. *)
Definition count_of (v : float) : Z :=
  Z_of_float (v / ACCEL_SCALE + (if (v <? 0)%float then -0.5 else 0.5))%float.

(* ------------------------------------------------------------------ *)
(** ** Benches: concrete worlds *)

(** The clock of the benches: one second per event so far. *)
Definition bench_clock (tr : list event) : float :=
  float_of_int (Z.of_nat (List.length tr)).

(** A fixture that accepts every call and whose sensor reads [data] at
    every read. *)
Definition constant_sensor (data : list Z) : world :=
  {| reply := fun _ c =>
       match c with
       | i2c_cmd _ _ (Some _) => Returns data
       | _ => Returns []
       end;
     clock := bench_clock |}.

(** A device whose self-test does nothing: every read is zero counts. *)
Definition stuck_sensor : world := constant_sensor [0; 0; 0; 0; 0; 0].

(** The last motion commanded along a trace, and whether the last write
    of the data-format register set the self-test bit. *)
Definition last_motion (tr : list event) : string :=
  fold_left (fun acc e => match e with Board (actuator_move config) => config | _ => acc end)
            tr "".

Definition self_test_on (tr : list event) : bool :=
  fold_left (fun acc e =>
               match e with
               | Board (i2c_cmd _ [0x31; value] None) => Z.testbit value 7
               | _ => acc
               end)
            tr false.

(** A healthy device on a healthy fixture: at rest it reads zero counts,
    in self-test mode (-256, -256, -208) counts, and after each motion
    counts inside that motion's envelope. *)
Definition bench_read (tr : list event) : list Z :=
  if String.eqb (last_motion tr) "slow_climb" then [0; 0; 128; 0; 3; 7]
  else if String.eqb (last_motion tr) "sharp_turn" then [120; 5; 120; 5; 0; 0]
  else if String.eqb (last_motion tr) "quick_drop" then [0; 0; 0; 0; 204; 247]
  else if self_test_on tr then [0; 255; 0; 255; 48; 255]
  else [0; 0; 0; 0; 0; 0].

Definition bench : world :=
  {| reply := fun tr c =>
       match c with
       | i2c_cmd _ _ (Some _) => Returns (bench_read tr)
       | _ => Returns []
       end;
     clock := bench_clock |}.

(** The same bench with a rail that cannot be switched off. *)
Definition bench_stuck_rail : world :=
  {| reply := fun tr c =>
       match c with
       | turn_off_ps _ => Fails "rail stuck"
       | _ => reply bench tr c
       end;
     clock := bench_clock |}.

(** A fixture whose 3V3 rail does not come up: power-on raises. *)
Definition dead_rail : world :=
  {| reply := fun _ c =>
       match c with
       | turn_on_ps _ => Fails "rail fault"
       | _ => Returns []
       end;
     clock := bench_clock |}.

(** The bench with a board that can be opened only once: the constructor
    raises as soon as a verdict has been printed. *)
Definition bench_once : world :=
  {| reply := fun tr c =>
       match c with
       | ZipTestBoard => if existsb is_print tr then Fails "board busy" else Returns []
       | _ => reply bench tr c
       end;
     clock := bench_clock |}.

(** No fixture attached: the constructor of the board raises. *)
Definition no_fixture : world :=
  {| reply := fun _ c =>
       match c with
       | ZipTestBoard => Fails "no board found"
       | _ => Returns []
       end;
     clock := bench_clock |}.

(* ------------------------------------------------------------------ *)
(** ** Decoding *)

Lemma unpack_h_pair lo hi :
  0 <= lo < 256 -> 0 <= hi < 256 ->
  unpack_h [lo; hi] = twos_complement16 lo hi.
Proof.
  intros Hlo Hhi. unfold unpack_h, signed16, twos_complement16, int_from_bytes_little.
  cbn [fold_right].
  destruct (Z.ltb_spec (lo + 256 * (hi + 256 * 0)) 32768) as [Hs | Hs].
  - rewrite Z.mod_small by lia. lia.
  - replace (lo + 256 * hi + 32768) with ((lo + 256 * hi - 32768) + 1 * 65536) by lia.
    rewrite Z.mod_add by lia. rewrite Z.mod_small by lia. lia.
Qed.

Lemma is_byte_range b : is_byte b = true -> 0 <= b < 256.
Proof. unfold is_byte. intros H. apply andb_true_iff in H. lia. Qed.

Lemma decode_acceleration_six b0 b1 b2 b3 b4 b5 :
  forallb is_byte [b0; b1; b2; b3; b4; b5] = true ->
  decode_acceleration [b0; b1; b2; b3; b4; b5] =
  Return (sample (float_of_int (twos_complement16 b0 b1) * 0.0039)%float
                 (float_of_int (twos_complement16 b2 b3) * 0.0039)%float
                 (float_of_int (twos_complement16 b4 b5) * 0.0039)%float).
Proof.
  intros Hb. unfold decode_acceleration, bytes. rewrite Hb.
  cbn [forallb] in Hb. repeat (apply andb_true_iff in Hb; destruct Hb as [? Hb]).
  cbn [obind struct_unpack_hhh List.length Z.of_nat Pos.of_succ_nat Pos.succ
       Z.eqb Pos.eqb firstn skipn].
  rewrite !unpack_h_pair by (apply is_byte_range; assumption).
  reflexivity.
Qed.

Lemma counts_from_in (len : nat) :
  forall first n, first <= n < first + Z.of_nat len -> In n (counts_from first len).
Proof.
  induction len as [| len IH]; intros first n Hn; [lia |].
  cbn [counts_from]. destruct (Z.eq_dec first n) as [-> | Hne]; [now left | right].
  apply IH. lia.
Qed.

Lemma for_all_counts (P : Z -> bool) :
  forallb P int16_counts = true ->
  forall n, -32768 <= n <= 32767 -> P n = true.
Proof.
  intros Hall n Hn. rewrite forallb_forall in Hall. apply Hall.
  unfold int16_counts. apply counts_from_in.
  change (2 ^ 16)%nat with (Z.to_nat 65536). lia.
Qed.

Lemma twos_complement16_range lo hi : -32768 <= twos_complement16 lo hi <= 32767.
Proof.
  unfold twos_complement16.
  pose proof (Z.mod_pos_bound (lo + 256 * hi + 32768) 65536 eq_refl). lia.
Qed.

Lemma counts_exact :
  forallb (fun n => float_equals_int (float_of_int n) n) int16_counts = true.
Proof. vm_compute. reflexivity. Qed.

(** C1.  Whatever six bytes the fixture returns for the read of the data
    register, [_read_acceleration] returns the sample whose x, y and z are
    the two's-complement 16-bit values of the byte pairs (0,1), (2,3) and
    (4,5), least significant byte first, each converted to the float of
    exactly that value and multiplied by 0.0039; the only effect is the
    one bus transaction. *)
Theorem read_acceleration_decodes (W : world) (s : tester) (b0 b1 b2 b3 b4 b5 : Z) :
  board s = true ->
  forallb is_byte [b0; b1; b2; b3; b4; b5] = true ->
  reply W (trace s) read_data = Returns [b0; b1; b2; b3; b4; b5] ->
  exists cx cy cz : float,
    float_equals_int cx (twos_complement16 b0 b1) = true /\
    float_equals_int cy (twos_complement16 b2 b3) = true /\
    float_equals_int cz (twos_complement16 b4 b5) = true /\
    _read_acceleration W s =
    (Return (sample (cx * 0.0039)%float (cy * 0.0039)%float (cz * 0.0039)%float),
     record (Board read_data) s).
Proof.
  intros Hboard Hbytes Hreply.
  exists (float_of_int (twos_complement16 b0 b1)),
         (float_of_int (twos_complement16 b2 b3)),
         (float_of_int (twos_complement16 b4 b5)).
  repeat split;
    try (apply (for_all_counts _ counts_exact); apply twos_complement16_range).
  unfold _read_acceleration, bind, board_call, lift. fold read_data.
  rewrite Hboard, Hreply. rewrite decode_acceleration_six by assumption.
  reflexivity.
Qed.

Lemma read_acceleration_decodes_witness :
  let W := constant_sensor [232; 3; 212; 254; 0; 128] in
  let s := set_board __init__ in
  (exists cx cy cz : float,
     float_equals_int cx 1000 = true /\
     float_equals_int cy (-300) = true /\
     float_equals_int cz (-32768) = true /\
     _read_acceleration W s =
     (Return (sample (cx * 0.0039)%float (cy * 0.0039)%float (cz * 0.0039)%float),
      record (Board read_data) s)) /\
  _read_acceleration W s =
    (Return (sample 3.9 (-1.17) (-127.7952)), record (Board read_data) s).
Proof.
  intros W s. split.
  - exact (read_acceleration_decodes W s 232 3 212 254 0 128 eq_refl eq_refl eq_refl).
  - vm_compute. reflexivity.
Defined.

(** C2.  When the fixture returns a buffer that is not six long,
    [_read_acceleration] raises: no sample is returned, and for a buffer
    of bytes the exception is the [struct.error] of the unpacking. *)
Theorem read_acceleration_wrong_length (W : world) (s : tester) (data : list Z) :
  board s = true ->
  reply W (trace s) read_data = Returns data ->
  List.length data <> 6%nat ->
  exists e : exn,
    _read_acceleration W s = (Raise e, record (Board read_data) s) /\
    (forallb is_byte data = true ->
     e = struct_error [Lit "unpack requires a buffer of 6 bytes"]).
Proof.
  intros Hboard Hreply Hlen.
  unfold _read_acceleration, bind, board_call, lift. fold read_data.
  rewrite Hboard, Hreply. unfold decode_acceleration, bytes.
  destruct (forallb is_byte data).
  - cbn [obind]. unfold struct_unpack_hhh.
    destruct (Z.eqb_spec (Z.of_nat (List.length data)) 6) as [E | E]; [lia |].
    cbn [obind]. eexists. split; [reflexivity | reflexivity].
  - cbn [obind]. eexists. split; [reflexivity | discriminate].
Qed.

Lemma read_acceleration_wrong_length_witness :
  (exists e : exn,
     _read_acceleration (constant_sensor [0; 1; 255; 255; 0]) (set_board __init__) =
       (Raise e, record (Board read_data) (set_board __init__)) /\
     (forallb is_byte [0; 1; 255; 255; 0] = true ->
      e = struct_error [Lit "unpack requires a buffer of 6 bytes"])) /\
  (exists e : exn,
     _read_acceleration (constant_sensor [0; 1; 255; 255; 0; 128; 7]) (set_board __init__) =
       (Raise e, record (Board read_data) (set_board __init__)) /\
     (forallb is_byte [0; 1; 255; 255; 0; 128; 7] = true ->
      e = struct_error [Lit "unpack requires a buffer of 6 bytes"])).
Proof.
  split.
  - apply (read_acceleration_wrong_length (constant_sensor [0; 1; 255; 255; 0])
             (set_board __init__) [0; 1; 255; 255; 0]);
      [reflexivity | reflexivity | discriminate].
  - apply (read_acceleration_wrong_length (constant_sensor [0; 1; 255; 255; 0; 128; 7])
             (set_board __init__) [0; 1; 255; 255; 0; 128; 7]);
      [reflexivity | reflexivity | discriminate].
Defined.

(* ------------------------------------------------------------------ *)
(** ** The self-test evaluation *)

Ltac split_band :=
  repeat match goal with
         | |- context [(?a <=? ?b)%float] => destruct (a <=? b)%float eqn:?
         | |- context [(?a <? ?b)%float] => destruct (a <? b)%float eqn:?
         end.

(** What [self_test_evaluate] computes on two samples, with the lookups
    and the loop unrolled. *)
Lemma self_test_evaluate_sample bx by_ bz sx sy sz :
  self_test_evaluate (sample bx by_ bz) (sample sx sy sz) =
  let dx := (sx - bx)%float in
  let dy := (sy - by_)%float in
  let dz := (sz - bz)%float in
  if negb ((-1.2 <=? dx)%float && (dx <=? -0.9)%float) then
    Raise (ValueError (self_test_message "x" dx (-1.2) (-0.9)))
  else if negb ((-1.2 <=? dy)%float && (dy <=? -0.9)%float) then
    Raise (ValueError (self_test_message "y" dy (-1.2) (-0.9)))
  else if negb ((-1.0 <=? dz)%float && (dz <=? -0.7)%float) then
    Raise (ValueError (self_test_message "z" dz (-1.0) (-0.7)))
  else Return tt.
Proof.
  unfold self_test_evaluate, sample, SELF_TEST_THRESHOLDS.
  cbn [delta_of getitem String.eqb Ascii.eqb Bool.eqb obind check_thresholds].
  cbv zeta. split_band; reflexivity.
Qed.




(** A baseline at rest and a stimulated sample of (-1.0, -1.0, -0.8) pass. *)
Example self_test_scenario_passes :
  self_test_evaluate (sample 0 0 0) (sample (-1.0) (-1.0) (-0.8)) = Return tt.
Proof. vm_compute. reflexivity. Qed.

(* ------------------------------------------------------------------ *)
(** ** The motion checks *)

(** C5.  The sharp-turn check returns without raising exactly when x and
    y are both strictly above 5.0; at exactly 5.0 on x or on y it raises. *)
Theorem sharp_turn_accepts_iff (x y z : float) :
  (_check_sharp_turn (sample x y z) = Return tt <->
   (5.0 <? x)%float = true /\ (5.0 <? y)%float = true) /\
  _check_sharp_turn (sample 5.0 y z) =
    Raise (ValueError [Lit "Sharp turn: X "; Fix2 5.0; Lit "g or Y "; Fix2 y;
                       Lit "g not > 5g"]) /\
  _check_sharp_turn (sample x 5.0 z) =
    Raise (ValueError [Lit "Sharp turn: X "; Fix2 x; Lit "g or Y "; Fix2 5.0;
                       Lit "g not > 5g"]).
Proof.
  unfold _check_sharp_turn, sample.
  cbn [getitem String.eqb Ascii.eqb Bool.eqb obind].
  split; [| split].
  - split_band; cbn; intuition (try discriminate; try congruence).
  - reflexivity.
  - destruct (5.0 <? x)%float; reflexivity.
Qed.

(** C6.  The slow-climb check returns without raising exactly when y lies
    in [-1.0, 1.0] and z in [6.0, 8.0]; the sample (0, 0.5, 7.0) passes,
    and (0, 2.0, 7.0) raises the [ValueError] whose message names the
    y-axis. *)
Theorem slow_climb_accepts_iff (x y z : float) :
  (_check_slow_climb (sample x y z) = Return tt <->
   in_band (-1.0) 1.0 y /\ in_band 6.0 8.0 z) /\
  _check_slow_climb (sample 0 0.5 7.0) = Return tt /\
  _check_slow_climb (sample 0 2.0 7.0) =
    Raise (ValueError [Lit "Slow climb: y-axis "; Fix2 2.0; Lit "g not in [-1, 1]g"]).
Proof.
  split; [| split].
  - unfold _check_slow_climb, sample, in_band.
    cbn [getitem String.eqb Ascii.eqb Bool.eqb obind].
    split_band; cbn; intuition (try discriminate; try congruence).
  - vm_compute. reflexivity.
  - vm_compute. reflexivity.
Qed.

(** X1.  The quick-drop check returns without raising exactly when z is
    strictly below -8.0, whatever x and y are; at exactly -8.0 it raises
    its [ValueError]. *)
Lemma quick_drop_accepts_iff (x y z : float) :
  (_check_quick_drop (sample x y z) = Return tt <-> (z <? -8.0)%float = true) /\
  _check_quick_drop (sample x y (-8.0)) =
    Raise (ValueError [Lit "Quick drop: Z axis "; Fix2 (-8.0); Lit "g not < -8g"]).
Proof.
  unfold _check_quick_drop, sample.
  cbn [getitem String.eqb Ascii.eqb Bool.eqb obind].
  split; [| reflexivity].
  split_band; cbn; intuition (try discriminate; try congruence).
Qed.

(* ------------------------------------------------------------------ *)
(** ** What an operation may do to the tester and to the trace *)

Lemma frame_refl s : frame s s [].
Proof. constructor; auto using app_nil_r. Qed.

Lemma frame_record e s : frame s (record e s) [e].
Proof. constructor; auto. Qed.

Lemma frame_trans s s' s'' evs evs' :
  frame s s' evs -> frame s' s'' evs' -> frame s s'' (evs ++ evs').
Proof.
  intros [T B S P R] [T' B' S' P' R']. constructor.
  - rewrite T', T. now rewrite app_assoc.
  - auto.
  - congruence.
  - congruence.
  - congruence.
Qed.

Section Emits.

Variable W : world.
Variable P : event -> bool.

Lemma emits_ret {A : Type} (a : A) : emits P (ret a).
Proof. intros s r s' [= <- <-]. exists []. split; [apply frame_refl | reflexivity]. Qed.

Lemma emits_lift {A : Type} (o : outcome A) : emits P (lift o).
Proof. intros s r s' [= <- <-]. exists []. split; [apply frame_refl | reflexivity]. Qed.

Lemma emits_record e : P e = true -> emits P (update (record e)).
Proof.
  intros He s r s' [= <- <-]. exists [e]. split; [apply frame_record |].
  cbn. now rewrite He.
Qed.

Lemma emits_bind {A B : Type} (m : M A) (k : A -> M B) :
  emits P m -> (forall a, emits P (k a)) -> emits P (bind m k).
Proof.
  intros Hm Hk s r s'. unfold bind.
  destruct (m s) as [[a | e] s1] eqn:Em; intros Hrun.
  - destruct (Hm _ _ _ Em) as (evs & F & Q).
    destruct (Hk a _ _ _ Hrun) as (evs' & F' & Q').
    exists (evs ++ evs'). split; [eapply frame_trans; eassumption |].
    rewrite forallb_app, Q, Q'. reflexivity.
  - injection Hrun as <- <-. exact (Hm _ _ _ Em).
Qed.

Lemma emits_board_call c : P (Board c) = true -> emits P (board_call W c).
Proof.
  intros Hc s r s'. unfold board_call.
  destruct (board s).
  - destruct (reply W (trace s) c); intros [= <- <-]; exists [Board c];
      (split; [apply frame_record | cbn; now rewrite Hc]).
  - intros [= <- <-]. exists []. split; [apply frame_refl | reflexivity].
Qed.

Lemma emits_new_board : P (Board ZipTestBoard) = true -> emits P (new_board W).
Proof.
  intros Hc s r s'. unfold new_board.
  destruct (reply W (trace s) ZipTestBoard); intros [= <- <-];
    exists [Board ZipTestBoard]; (split; [| cbn; now rewrite Hc]).
  - constructor; auto.
  - apply frame_record.
Qed.

Lemma emits_time_sleep x : P (Sleep x) = true -> emits P (time_sleep x).
Proof. apply emits_record. Qed.

Lemma emits_read_acceleration :
  P (Board read_data) = true -> emits P (_read_acceleration W).
Proof.
  intros H. unfold _read_acceleration.
  apply emits_bind; [now apply emits_board_call | intros; apply emits_lift].
Qed.

Lemma emits_block (stmts : list (M unit)) :
  Forall (emits P) stmts -> emits P (block stmts).
Proof.
  induction 1 as [| stmt rest Hstmt _ IH]; cbn [block].
  - apply emits_ret.
  - apply emits_bind; [assumption | intros; assumption].
Qed.

End Emits.

Ltac emits_steps :=
  repeat first
    [ apply emits_bind; [| intros ?]
    | apply emits_board_call; reflexivity
    | apply emits_new_board; reflexivity
    | apply emits_time_sleep; reflexivity
    | apply emits_read_acceleration; reflexivity
    | apply emits_lift
    | apply emits_ret ].

Lemma emits_configure W : emits still_event (_configure_accelerometer W).
Proof. unfold _configure_accelerometer. emits_steps. Qed.

Lemma emits_self_test W : emits still_event (_perform_self_test W).
Proof. unfold _perform_self_test. emits_steps. Qed.

Lemma emits_actuator_test W config check_func :
  emits body_event (_actuator_test W config check_func).
Proof. unfold _actuator_test. emits_steps. Qed.

Lemma still_is_body evs : forallb still_event evs = true -> forallb body_event evs = true.
Proof.
  induction evs as [| e evs IH]; cbn [forallb]; [reflexivity |].
  unfold still_event at 1. intros H.
  apply andb_true_iff in H. destruct H as [H1 H2].
  apply andb_true_iff in H1. destruct H1 as [H1 _].
  rewrite H1. cbn. auto.
Qed.

Lemma emits_weaken {A : Type} (m : M A) : emits still_event m -> emits body_event m.
Proof.
  intros H s r s' Hrun. destruct (H _ _ _ Hrun) as (evs & F & Q).
  exists evs. split; [assumption | now apply still_is_body].
Qed.

(* ------------------------------------------------------------------ *)
(** ** The shape of a run *)

Lemma steps_emit W : Forall (emits body_event) (steps W).
Proof.
  unfold steps.
  repeat first [ apply Forall_nil | apply Forall_cons ];
    first [ apply emits_actuator_test
          | apply emits_weaken, emits_self_test
          | apply emits_weaken, emits_configure
          | emits_steps ].
Qed.

Lemma first_steps_emit W : Forall (emits still_event) (firstn 5 (steps W)).
Proof.
  unfold steps. cbn [firstn].
  repeat first [ apply Forall_nil | apply Forall_cons ];
    first [ apply emits_self_test | apply emits_configure | emits_steps ].
Qed.

(** The monad laws the script's sequencing relies on, pointwise. *)
Lemma bind_assoc {A B C : Type} (m : M A) (k : A -> M B) (h : B -> M C) s :
  bind (bind m k) h s = bind m (fun a => bind (k a) h) s.
Proof. unfold bind. destruct (m s) as [[a | e] s1]; reflexivity. Qed.

Lemma bind_ret_l {A B : Type} (a : A) (k : A -> M B) s : bind (ret a) k s = k a s.
Proof. reflexivity. Qed.

Lemma bind_ext {A B : Type} (m : M A) (k k' : A -> M B) s :
  (forall a s', k a s' = k' a s') -> bind m k s = bind m k' s.
Proof. intros H. unfold bind. destruct (m s) as [[a | e] s1]; [apply H | reflexivity]. Qed.

Lemma bind_return {A B : Type} (m : M A) (k : A -> M B) s a s' :
  m s = (Return a, s') -> bind m k s = k a s'.
Proof. intros H. unfold bind. now rewrite H. Qed.

Lemma bind_raise {A B : Type} (m : M A) (k : A -> M B) s e s' :
  m s = (Raise e, s') -> bind m k s = (Raise e, s').
Proof. intros H. unfold bind. now rewrite H. Qed.

(** The [try] block is its steps in sequence, then the assignment. *)
Lemma try_block_steps W s :
  try_block W s = (block (steps W) ;; update set_test_passed) s.
Proof.
  unfold try_block, steps. cbn [block].
  repeat (rewrite ?bind_ret_l; cbv beta; rewrite ?bind_assoc;
          first [ reflexivity | apply bind_ext; intros ? ? ]).
Qed.

Lemma block_split (done : list (M unit)) (failing : M unit) (skipped : list (M unit)) s s1 :
  block done s = (Return tt, s1) ->
  block (done ++ failing :: skipped) s = (failing ;; block skipped) s1.
Proof.
  revert s. induction done as [| stmt done IH]; intros s; cbn [block app].
  - intros [= <-]. reflexivity.
  - intros H. destruct (stmt s) as [[[] | e] s'] eqn:E.
    + rewrite (bind_return _ _ _ _ _ E) in H.
      rewrite (bind_return _ _ _ _ _ E). now apply IH.
    + rewrite (bind_raise _ _ _ _ _ E) in H. discriminate.
Qed.

Lemma finally_block_spec W t0 s :
  start_time s = Some t0 ->
  finally_block W s = (Return tt, after_finally W t0 s).
Proof.
  intros Hstart. destruct s as [b st tp fr tr]. cbn in Hstart. subst st.
  unfold finally_block, _log_result, after_finally, verdict, bind, time_time,
    print, update, try_except, board_call, ret, record.
  cbn [start_time test_passed failure_reason board trace].
  destruct tp; destruct b; try reflexivity;
    match goal with |- context [reply W ?t ?c] => destruct (reply W t c) end;
    reflexivity.
Qed.

(** What the [try] block does to the tester. *)
Lemma try_block_frame W s r s1 :
  try_block W s = (r, s1) ->
  exists evs,
    trace s1 = trace s ++ evs /\ forallb body_event evs = true /\
    start_time s1 = start_time s /\
    (board s = true -> board s1 = true) /\
    failure_reason s1 = failure_reason s /\
    test_passed s1 = match r with Return _ => true | Raise _ => test_passed s end.
Proof.
  rewrite try_block_steps. unfold bind.
  destruct (block (steps W) s) as [[[] | e] s'] eqn:Eb.
  - intros [= <- <-].
    destruct (emits_block _ _ (steps_emit W) _ _ _ Eb) as (evs & [T B S P R] & Q).
    exists evs. cbn. repeat split; auto.
  - intros [= <- <-].
    destruct (emits_block _ _ (steps_emit W) _ _ _ Eb) as (evs & [T B S P R] & Q).
    exists evs. repeat split; auto.
Qed.

(** A run, from a fresh tester: the start time is taken, the [try] block
    runs, an exception is turned into the failure reason, and the
    [finally] block ends the run.  [run_test] itself never raises. *)
Lemma run_test_cases W :
  main W =
  match try_block W (started W) with
  | (Return _, s1) => (Return tt, after_finally W (clock W []) s1)
  | (Raise e, s1) =>
      (Return tt,
       after_finally W (clock W []) (set_failure_reason (format_exc e) s1))
  end.
Proof.
  unfold main, run_test, bind, time_time, update, try_finally, try_except.
  cbn [trace __init__]. fold (started W).
  destruct (try_block W (started W)) as [[[] | e] s1] eqn:Et;
    destruct (try_block_frame _ _ _ _ Et) as (evs & _ & _ & S & _).
  - rewrite (finally_block_spec W (clock W [])) by (rewrite S; reflexivity).
    reflexivity.
  - rewrite (finally_block_spec W (clock W [])) by (cbn; rewrite S; reflexivity).
    reflexivity.
Qed.

Lemma still_event_no_move evs config :
  forallb still_event evs = true -> ~ In (Board (actuator_move config)) evs.
Proof.
  intros Hall Hin. rewrite forallb_forall in Hall.
  specialize (Hall _ Hin). discriminate Hall.
Qed.

Lemma first_steps_split W (done skipped : list (M unit)) (failing : M unit) :
  steps W = done ++ failing :: skipped ->
  (List.length done <= 4)%nat ->
  Forall (emits still_event) done /\ emits still_event failing.
Proof.
  intros Hsplit Hlen.
  pose proof (first_steps_emit W) as H. rewrite Hsplit in H.
  rewrite firstn_app in H. apply Forall_app in H. destruct H as [Hdone Hrest].
  rewrite firstn_all2 in Hdone by lia. split; [assumption |].
  destruct (5 - List.length done)%nat as [| k] eqn:Ek; [lia |].
  cbn [firstn] in Hrest. now inversion Hrest.
Qed.

(** C7.  When the steps of the [try] block before some step have all
    returned and that step raises, the run ends as a failure right there:
    [run_test] returns, the tester is marked failed with the traceback of
    that exception, and after the events of the failing step the trace
    holds only the clock read and the print of the verdict and the
    power-off: nothing of the later steps.  When the failing step is the
    self-test or an earlier one, no actuator command occurs anywhere in
    the trace of the run. *)
Theorem failure_skips_remaining_steps (W : world)
    (done skipped : list (M unit)) (failing : M unit) (s1 s2 : tester) (e : exn) :
  steps W = done ++ failing :: skipped ->
  block done (started W) = (Return tt, s1) ->
  failing s1 = (Raise e, s2) ->
  let final := snd (main W) in
  fst (main W) = Return tt /\
  test_passed final = false /\
  failure_reason final = Some [Traceback e] /\
  trace final =
    trace s2
      ++ [Clock;
          Print [Lit "TEST FAILED in ";
                 Fix2 (clock W (trace s2) - clock W [])%float;
                 Lit " sec due to "; Traceback e]]
      ++ (if board s2 then [Board (turn_off_ps "3V3")] else []) /\
  ((List.length done <= 4)%nat ->
   forall config, ~ In (Board (actuator_move config)) (trace final)).
Proof.
  intros Hsplit Hdone Hfail final.
  assert (Hblock : block (steps W) (started W) = (Raise e, s2)).
  { rewrite Hsplit, (block_split _ _ _ _ _ Hdone).
    now apply bind_raise. }
  assert (Htry : try_block W (started W) = (Raise e, s2)).
  { rewrite try_block_steps. now apply bind_raise. }
  destruct (try_block_frame _ _ _ _ Htry) as (evs & T & Q & S & B & R & P).
  cbn in P.
  assert (Hmain : main W =
    (Return tt, after_finally W (clock W []) (set_failure_reason (format_exc e) s2))).
  { rewrite run_test_cases, Htry. reflexivity. }
  assert (Htrace : trace final =
    trace s2
      ++ [Clock;
          Print [Lit "TEST FAILED in ";
                 Fix2 (clock W (trace s2) - clock W [])%float;
                 Lit " sec due to "; Traceback e]]
      ++ (if board s2 then [Board (turn_off_ps "3V3")] else [])).
  { subst final. rewrite Hmain. cbn [snd]. unfold after_finally, verdict.
    cbn [board set_failure_reason test_passed failure_reason trace
         str_failure_reason format_exc].
    rewrite P. destruct (board s2); cbn [record trace app];
      rewrite <- ?app_assoc; reflexivity. }
  split; [now rewrite Hmain |].
  split; [subst final; rewrite Hmain; cbn [snd]; unfold after_finally;
          destruct (board (set_failure_reason (format_exc e) s2)); cbn; exact P |].
  split; [subst final; rewrite Hmain; cbn [snd]; unfold after_finally;
          destruct (board (set_failure_reason (format_exc e) s2)); reflexivity |].
  split; [exact Htrace |].
  intros Hlen config Hin.
  destruct (first_steps_split _ _ _ _ Hsplit Hlen) as [Hd Hf].
  destruct (emits_block _ _ Hd _ _ _ Hdone) as (evs1 & [T1 _ _ _ _] & Q1).
  destruct (Hf _ _ _ Hfail) as (evs2 & [T2 _ _ _ _] & Q2).
  rewrite Htrace, T2, T1 in Hin.
  cbn [started set_start_time record trace __init__ app] in Hin.
  destruct Hin as [Hin | Hin]; [discriminate Hin |].
  apply in_app_or in Hin. destruct Hin as [Hin | Hin].
  - apply in_app_or in Hin. destruct Hin as [Hin | Hin].
    + exact (still_event_no_move _ _ Q1 Hin).
    + exact (still_event_no_move _ _ Q2 Hin).
  - destruct Hin as [Hin | [Hin | Hin]]; try discriminate Hin.
    destruct (board s2); [destruct Hin as [Hin | []]; discriminate Hin | destruct Hin].
Qed.

Lemma failure_skips_remaining_steps_witness :
  let W := stuck_sensor in
  let done := firstn 4 (steps W) in
  let s2 := snd (_perform_self_test W (snd (block done (started W)))) in
  let e := ValueError (self_test_message "x" 0 (-1.2) (-0.9)) in
  let final := snd (main W) in
  fst (main W) = Return tt /\
  test_passed final = false /\
  failure_reason final = Some [Traceback e] /\
  trace final =
    trace s2
      ++ [Clock;
          Print [Lit "TEST FAILED in ";
                 Fix2 (clock W (trace s2) - clock W [])%float;
                 Lit " sec due to "; Traceback e]]
      ++ (if board s2 then [Board (turn_off_ps "3V3")] else []) /\
  ((List.length done <= 4)%nat ->
   forall config, ~ In (Board (actuator_move config)) (trace final)).
Proof.
  intros W done s2 e.
  apply (failure_skips_remaining_steps W done (skipn 5 (steps W))
           (_perform_self_test W) (snd (block done (started W))) s2 e).
  - reflexivity.
  - vm_compute. reflexivity.
  - vm_compute. reflexivity.
Defined.

(* ------------------------------------------------------------------ *)
(** ** Teardown *)

Lemma body_events_quiet evs :
  forallb body_event evs = true ->
  printed evs = [] /\ filter is_power_off evs = [].
Proof.
  induction evs as [| e evs IH]; cbn [forallb]; [auto |].
  intros H. apply andb_true_iff in H. destruct H as [He Hrest].
  destruct (IH Hrest) as [IHp IHf].
  destruct e as [c | x | | line]; cbn in He; try discriminate He.
  - cbn [printed filter]. destruct c; cbn in He |- *; try discriminate He; auto.
  - cbn [printed filter is_power_off]. auto.
Qed.

Lemma bind_cong {A B : Type} (m m' : M A) (k k' : A -> M B) :
  (forall s, m s = m' s) -> (forall a s, k a s = k' a s) ->
  forall s, bind m k s = bind m' k' s.
Proof.
  intros Hm Hk s. unfold bind. rewrite Hm.
  destruct (m' s) as [[a | e] s1]; [apply Hk | reflexivity].
Qed.

Section SameButPowerOff.

Variables W W' : world.
Hypothesis same : same_but_power_off W W'.

Lemma board_call_same c :
  is_power_off (Board c) = false -> forall s, board_call W' c s = board_call W c s.
Proof.
  intros Hc s. unfold board_call. destruct same as [_ Hr]. now rewrite Hr.
Qed.

Lemma new_board_same s : new_board W' s = new_board W s.
Proof. unfold new_board. destruct same as [_ Hr]. now rewrite Hr. Qed.

Lemma read_acceleration_same s : _read_acceleration W' s = _read_acceleration W s.
Proof.
  unfold _read_acceleration. apply bind_cong; [| reflexivity].
  now apply board_call_same.
Qed.

Lemma try_block_same s : try_block W' s = try_block W s.
Proof.
  revert s.
  unfold try_block, _configure_accelerometer, _perform_self_test, _actuator_test.
  repeat first
    [ reflexivity
    | apply new_board_same
    | apply read_acceleration_same
    | apply board_call_same; reflexivity
    | apply bind_cong; [| intros ?]
    | intros ? ].
Qed.

Lemma main_same : main W' = main W.
Proof.
  rewrite !run_test_cases. destruct same as [Hc _].
  unfold started. rewrite (Hc []). fold (started W).
  rewrite try_block_same.
  destruct (try_block W (started W)) as [[[] | e] s1];
    unfold after_finally; rewrite Hc; reflexivity.
Qed.

End SameButPowerOff.

(** The board exists after the [try] block exactly when its constructor
    returned. *)
Lemma try_block_board W r s1 :
  try_block W (started W) = (r, s1) ->
  board s1 = match reply W [Clock] ZipTestBoard with
             | Returns _ => true
             | Fails _ => false
             end.
Proof.
  rewrite try_block_steps.
  change (steps W) with (new_board W :: tl (steps W)). cbn [block].
  rewrite bind_assoc. unfold bind at 1, new_board at 1.
  cbn [started set_start_time record trace __init__ app].
  destruct (reply W [Clock] ZipTestBoard) as [v | d].
  - unfold bind.
    match goal with |- context [block ?l ?s] =>
      destruct (block l s) as [[[] | e] s'] eqn:Eb end;
      intros [= <- <-];
      destruct (emits_block _ _ (Forall_inv_tail (steps_emit W)) _ _ _ Eb)
        as (evs & [T B S P R] & Q);
      cbn; apply B; reflexivity.
  - intros [= <- <-]. reflexivity.
Qed.

(** C8, as the code has it.  [run_test] never raises.  The 3V3 rail is
    switched off exactly once, as the last thing the run does, in every
    run whose board constructor returned: on a pass, on a failure of any
    later step, power-on included.  When the constructor itself raises
    there is no board and no power-off call is made.  How the fixture
    answers the power-off call, by returning or by raising, changes
    nothing: the run returns the same way and leaves the same tester,
    verdict and printed line. *)
Theorem power_off_once_and_swallowed (W W' : world) :
  same_but_power_off W W' ->
  let final := snd (main W) in
  fst (main W) = Return tt /\
  match reply W [Clock] ZipTestBoard with
  | Returns _ =>
      count_power_off (trace final) = 1%nat /\
      exists before, trace final = before ++ [Board (turn_off_ps "3V3")]
  | Fails _ => count_power_off (trace final) = 0%nat
  end /\
  main W' = main W.
Proof.
  intros Hsame final.
  split; [| split; [| now apply main_same]].
  - rewrite run_test_cases.
    destruct (try_block W (started W)) as [[[] | e] s1]; reflexivity.
  - subst final. rewrite run_test_cases.
    destruct (try_block W (started W)) as [[[] | e] s1] eqn:Et;
      pose proof (try_block_board _ _ _ Et) as Hb;
      destruct (try_block_frame _ _ _ _ Et) as (evs & T & Q & _);
      destruct (body_events_quiet _ Q) as [_ Hf];
      cbn [snd]; unfold after_finally, count_power_off;
      cbn [board set_failure_reason trace]; rewrite Hb;
      destruct (reply W [Clock] ZipTestBoard) as [v | d];
      cbn [record trace set_failure_reason]; rewrite !T;
      cbn [started set_start_time record trace __init__ app];
      rewrite ?filter_app, ?Hf; cbn;
      rewrite ?filter_app, ?Hf; cbn;
      try reflexivity; (split; [reflexivity | eexists (_ :: _); reflexivity]).
Qed.

Lemma power_off_once_and_swallowed_witness :
  let final := snd (main bench) in
  fst (main bench) = Return tt /\
  match reply bench [Clock] ZipTestBoard with
  | Returns _ =>
      count_power_off (trace final) = 1%nat /\
      exists before, trace final = before ++ [Board (turn_off_ps "3V3")]
  | Fails _ => count_power_off (trace final) = 0%nat
  end /\
  main bench_stuck_rail = main bench.
Proof.
  apply (power_off_once_and_swallowed bench bench_stuck_rail).
  split; [reflexivity |].
  intros tr c H. destruct c; first [reflexivity | discriminate H].
Defined.

(** Without a board there is nothing to switch off: when the constructor
    raises, the run prints its verdict and makes no power-off call. *)
Lemma no_board_no_power_off :
  reply no_fixture [Clock] ZipTestBoard = Fails "no board found" /\
  trace (snd (main no_fixture)) =
    [Clock; Board ZipTestBoard; Clock;
     Print [Lit "TEST FAILED in "; Fix2 2; Lit " sec due to ";
            Traceback (BoardError "no board found")]] /\
  count_power_off (trace (snd (main no_fixture))) = 0%nat.
Proof. repeat split; vm_compute; reflexivity. Qed.

(** When power-on raises, the board exists and the rail is still switched
    off, once. *)
Example power_on_failure_still_powers_off :
  trace (snd (main dead_rail)) =
    [Clock; Board ZipTestBoard; Board (turn_on_ps "3V3"); Clock;
     Print [Lit "TEST FAILED in "; Fix2 3; Lit " sec due to ";
            Traceback (BoardError "rail fault")];
     Board (turn_off_ps "3V3")] /\
  count_power_off (trace (snd (main dead_rail))) = 1%nat.
Proof. split; vm_compute; reflexivity. Qed.

(* ------------------------------------------------------------------ *)
(** ** The verdict line *)

Lemma printed_app tr tr' : printed (tr ++ tr') = printed tr ++ printed tr'.
Proof.
  induction tr as [| e tr IH]; [reflexivity |].
  destruct e; cbn [printed app]; rewrite IH; reflexivity.
Qed.

(** The one print of a run, by the outcome of the [try] block. *)
Lemma verdict_print_cases (W : world) :
  let final := snd (main W) in
  exists (elapsed : float) (s1 : tester),
    elapsed = (clock W (trace s1) - clock W [])%float /\
    ((try_block W (started W) = (Return tt, s1) /\
      test_passed final = true /\
      printed (trace final) =
        [[Lit "TEST PASSED in "; Fix2 elapsed; Lit " sec"]])
     \/
     (exists e : exn,
        try_block W (started W) = (Raise e, s1) /\
        test_passed final = false /\
        printed (trace final) =
          [[Lit "TEST FAILED in "; Fix2 elapsed; Lit " sec due to "; Traceback e]])).
Proof.
  intros final. subst final. rewrite run_test_cases.
  destruct (try_block W (started W)) as [[[] | e] s1] eqn:Et;
    destruct (try_block_frame _ _ _ _ Et) as (evs & T & Q & _ & _ & _ & P);
    destruct (body_events_quiet _ Q) as [Hp _];
    exists (clock W (trace s1) - clock W [])%float, s1;
    (split; [reflexivity |]).
  - left. split; [reflexivity |].
    cbn [snd]. unfold after_finally, verdict. rewrite P.
    destruct (board s1); cbn [record trace test_passed];
      (split; [exact P |]);
      rewrite T; cbn [started set_start_time record trace __init__];
      rewrite !printed_app, Hp; reflexivity.
  - right. exists e. split; [reflexivity |].
    cbn [snd]. unfold after_finally, verdict.
    cbn [board set_failure_reason test_passed failure_reason trace
         str_failure_reason format_exc].
    cbn in P. rewrite P.
    destruct (board s1); cbn [record trace test_passed set_failure_reason];
      (split; [exact P |]);
      rewrite T; cbn [started set_start_time record trace __init__];
      rewrite !printed_app, Hp; reflexivity.
Qed.

(** C9, as the code has it.  A run makes exactly one print.  When the
    [try] block ran to its end the text is the single line
    [TEST PASSED in <elapsed> sec]; when it raised [e] the text is
    [TEST FAILED in <elapsed> sec due to] followed by the text of
    [traceback.format_exc()] for [e], which spans several lines, so the
    failure output is not one line.  [elapsed] is the clock at the end of
    the block minus the clock at the start of the run, and the tester's
    verdict agrees with the text. *)
Theorem one_verdict_print (W : world) :
  let final := snd (main W) in
  exists (elapsed : float) (s1 : tester) (line : text),
    elapsed = (clock W (trace s1) - clock W [])%float /\
    printed (trace final) = [line] /\
    ((try_block W (started W) = (Return tt, s1) /\
      test_passed final = true /\
      line = [Lit "TEST PASSED in "; Fix2 elapsed; Lit " sec"] /\
      single_line line = true)
     \/
     (exists e : exn,
        try_block W (started W) = (Raise e, s1) /\
        test_passed final = false /\
        line = [Lit "TEST FAILED in "; Fix2 elapsed; Lit " sec due to "; Traceback e] /\
        single_line line = false)).
Proof.
  intros final.
  destruct (verdict_print_cases W) as (elapsed & s1 & He & [(Ht & Hp & Hl) | (e & Ht & Hp & Hl)]).
  - exists elapsed, s1, [Lit "TEST PASSED in "; Fix2 elapsed; Lit " sec"].
    split; [exact He |]. split; [exact Hl |].
    left. repeat split; assumption.
  - exists elapsed, s1,
      [Lit "TEST FAILED in "; Fix2 elapsed; Lit " sec due to "; Traceback e].
    split; [exact He |]. split; [exact Hl |].
    right. exists e. repeat split; assumption.
Qed.

(** A failing run: the stuck sensor fails the self-test on x, and the one
    text printed holds the traceback, so it does not fit on one line. *)
Lemma failed_verdict_spans_lines :
  printed (trace (snd (main stuck_sensor))) =
    [[Lit "TEST FAILED in "; Fix2 15; Lit " sec due to ";
      Traceback
        (ValueError
           [Lit "The self-test was failed on "; Lit "x";
            Lit " axis: difference of "; Fix2 0; Lit "g is not in [";
            Repr (-1.2); Lit ", "; Repr (-0.9); Lit "]g"])]] /\
  map single_line (printed (trace (snd (main stuck_sensor)))) = [false].
Proof. split; vm_compute; reflexivity. Qed.

(** On the healthy bench the run passes, prints the one line and ends
    with the power-off. *)
Example bench_run_passes :
  fst (main bench) = Return tt /\
  test_passed (snd (main bench)) = true /\
  printed (trace (snd (main bench))) = [[Lit "TEST PASSED in "; Fix2 21; Lit " sec"]] /\
  last (trace (snd (main bench))) Clock = Board (turn_off_ps "3V3").
Proof. repeat split; vm_compute; reflexivity. Qed.

(* ------------------------------------------------------------------ *)
(** ** The self-test protocol *)

Lemma decode_acceleration_raises data e axis d lo hi :
  decode_acceleration data = Raise e ->
  e <> ValueError (self_test_message axis d lo hi).
Proof.
  unfold decode_acceleration, bytes, struct_unpack_hhh.
  destruct (forallb is_byte data); cbn [obind].
  - destruct (Z.of_nat (List.length data) =? 6); cbn [obind];
      intros [= <-]; discriminate.
  - intros [= <-]. discriminate.
Qed.

Lemma board_call_cases W c s r s' :
  board_call W c s = (r, s') ->
  (exists msg, r = Raise (AttributeError msg)) \/
  (exists descr, r = Raise (BoardError descr)) \/
  (exists value, r = Return value /\ s' = record (Board c) s /\
                 reply W (trace s) c = Returns value).
Proof.
  unfold board_call. destruct (board s).
  - destruct (reply W (trace s) c) as [v | descr]; intros [= <- <-].
    + right. right. exists v. auto.
    + right. left. eauto.
  - intros [= <- <-]. left. eauto.
Qed.

Lemma read_acceleration_cases W s r s' :
  _read_acceleration W s = (r, s') ->
  (forall axis d lo hi, r <> Raise (ValueError (self_test_message axis d lo hi))) /\
  ((exists accel, r = Return accel) -> s' = record (Board read_data) s).
Proof.
  unfold _read_acceleration. fold read_data. unfold bind.
  destruct (board_call W read_data s) as [[data | e] s1] eqn:Ec;
    destruct (board_call_cases _ _ _ _ _ Ec) as [[m H] | [[m H] | (v & H & Hs & _)]];
    try discriminate H.
  - unfold lift. intros [= <- <-].
    destruct (decode_acceleration data) as [accel | e] eqn:Ed.
    + split; [intros; discriminate | intros _; exact Hs].
    + split; [| intros [? [=]]].
      intros axis d lo hi [= He].
      exact (decode_acceleration_raises _ _ axis d lo hi Ed He).
  - injection H as ->. intros [= <- <-].
    split; [intros; discriminate | intros [? [=]]].
  - injection H as ->. intros [= <- <-].
    split; [intros; discriminate | intros [? [=]]].
Qed.

Lemma bind_inv {A B : Type} (m : M A) (k : A -> M B) s r s' :
  bind m k s = (r, s') ->
  (exists e, m s = (Raise e, s') /\ r = Raise e) \/
  (exists a s1, m s = (Return a, s1) /\ k a s1 = (r, s')).
Proof.
  unfold bind. destruct (m s) as [[a | e] s1].
  - intros H. right. eauto.
  - intros [= <- <-]. left. eauto.
Qed.

Lemma board_call_not_self_test W c s s' axis d lo hi :
  board_call W c s <> (Raise (ValueError (self_test_message axis d lo hi)), s').
Proof.
  intros H. destruct (board_call_cases _ _ _ _ _ H) as [[m E] | [[m E] | (v & E & _)]];
    discriminate E.
Qed.

Lemma board_call_returns W c s value s1 :
  board_call W c s = (Return value, s1) ->
  s1 = record (Board c) s /\ reply W (trace s) c = Returns value.
Proof.
  intros H. destruct (board_call_cases _ _ _ _ _ H) as [[m E] | [[m E] | (v & E & Hs & Hr)]];
    try discriminate E.
  injection E as <-. auto.
Qed.

Ltac self_test_step H :=
  apply bind_inv in H;
  destruct H as [(? & H & [= <-]) | (? & ? & ?Hcall & H)];
  [ exfalso;
    first [ exact (board_call_not_self_test _ _ _ _ _ _ _ _ H)
          | exact (proj1 (read_acceleration_cases _ _ _ _ H) _ _ _ _ eq_refl)
          | discriminate H ]
  | ].

(** C10.  Whenever [_perform_self_test] raises the self-test failure, the
    trace it leaves is the whole protocol: normal mode, settle, read,
    self-test mode, settle, read, and the write of normal mode again,
    which the fixture has accepted.  The restoring write therefore
    precedes every self-test failure. *)
Theorem self_test_failure_after_restore (W : world) (s s' : tester)
    (axis : string) (d lo hi : float) :
  _perform_self_test W s = (Raise (ValueError (self_test_message axis d lo hi)), s') ->
  let normal := write_register REG_DATA_FORMAT DATA_FORMAT_NORMAL in
  let self_test := write_register REG_DATA_FORMAT DATA_FORMAT_SELF_TEST in
  let stimulated_read :=
    [Board normal; Sleep 0.1; Board read_data;
     Board self_test; Sleep 0.1; Board read_data] in
  trace s' = trace s ++ stimulated_read ++ [Board normal] /\
  exists value, reply W (trace s ++ stimulated_read) normal = Returns value.
Proof.
  intros H normal self_test stimulated_read.
  unfold _perform_self_test in H.
  fold (write_register REG_DATA_FORMAT DATA_FORMAT_NORMAL) in H.
  fold (write_register REG_DATA_FORMAT DATA_FORMAT_SELF_TEST) in H.
  fold normal self_test in H.
  self_test_step H. apply board_call_returns in Hcall. destruct Hcall as [-> _].
  self_test_step H. injection Hcall as _ <-.
  self_test_step H.
  pose proof (proj2 (read_acceleration_cases _ _ _ _ Hcall) (ex_intro _ _ eq_refl)) as ->.
  self_test_step H. apply board_call_returns in Hcall0. destruct Hcall0 as [-> _].
  self_test_step H. injection Hcall0 as _ <-.
  self_test_step H.
  pose proof (proj2 (read_acceleration_cases _ _ _ _ Hcall0) (ex_intro _ _ eq_refl)) as ->.
  self_test_step H. apply board_call_returns in Hcall1. destruct Hcall1 as [-> Hr].
  unfold lift in H. injection H as _ <-.
  cbn [record trace] in Hr |- *. subst stimulated_read.
  rewrite <- !app_assoc in Hr. rewrite <- !app_assoc.
  split; [reflexivity | eexists; exact Hr].
Qed.

Lemma self_test_failure_after_restore_witness :
  let W := stuck_sensor in
  let s := set_board __init__ in
  let s' := snd (_perform_self_test W s) in
  let normal := write_register REG_DATA_FORMAT DATA_FORMAT_NORMAL in
  let self_test := write_register REG_DATA_FORMAT DATA_FORMAT_SELF_TEST in
  let stimulated_read :=
    [Board normal; Sleep 0.1; Board read_data;
     Board self_test; Sleep 0.1; Board read_data] in
  trace s' = trace s ++ stimulated_read ++ [Board normal] /\
  exists value, reply W (trace s ++ stimulated_read) normal = Returns value.
Proof.
  intros W s s'.
  apply (self_test_failure_after_restore W s s' "x" 0 (-1.2) (-0.9)).
  vm_compute. reflexivity.
Defined.

(* ------------------------------------------------------------------ *)
(** ** The run as a prefix of the protocol *)

Lemma firstn_prefix_app {A : Type} (n : nat) (l l' : list A) :
  firstn n l = firstn (Nat.min n (List.length l)) (l ++ l').
Proof.
  rewrite firstn_app.
  replace (Nat.min n (List.length l) - List.length l)%nat with 0%nat by lia.
  cbn [firstn]. rewrite app_nil_r.
  destruct (Nat.le_ge_cases n (List.length l)) as [H | H].
  - now rewrite Nat.min_l.
  - rewrite Nat.min_r by assumption. now rewrite !firstn_all2 by lia.
Qed.

Section Plays.

Variable W : world.

Lemma plays_lift {A : Type} (o : outcome A) : plays (lift o) [].
Proof.
  intros s r s' [= <- <-]. split; [exists 0%nat |]; intros; now rewrite app_nil_r.
Qed.

Lemma plays_record e : plays (update (record e)) [e].
Proof.
  intros s r s' [= <- <-]. split; [exists 1%nat |]; intros; reflexivity.
Qed.

Lemma plays_set_test_passed : plays (update set_test_passed) [].
Proof.
  intros s r s' [= <- <-]. split; [exists 0%nat |]; intros; cbn; now rewrite app_nil_r.
Qed.

Lemma plays_board_call c : plays (board_call W c) [Board c].
Proof.
  intros s r s'. unfold board_call. destruct (board s).
  - destruct (reply W (trace s) c); intros [= <- <-];
      (split; [exists 1%nat |]; intros; reflexivity).
  - intros [= <- <-]. split; [exists 0%nat; cbn; now rewrite app_nil_r |].
    intros a [=].
Qed.

Lemma plays_new_board : plays (new_board W) [Board ZipTestBoard].
Proof.
  intros s r s'. unfold new_board.
  destruct (reply W (trace s) ZipTestBoard); intros [= <- <-];
    (split; [exists 1%nat |]; intros; reflexivity).
Qed.

Lemma plays_bind {A B : Type} (m : M A) (k : A -> M B) evs evs' :
  plays m evs -> (forall a, plays (k a) evs') -> plays (bind m k) (evs ++ evs').
Proof.
  intros Hm Hk s r s'. unfold bind.
  destruct (m s) as [[a | e] s1] eqn:Em; intros Hrun.
  - destruct (Hm _ _ _ Em) as [_ Hall]. specialize (Hall a eq_refl).
    destruct (Hk a _ _ _ Hrun) as [[n Hn] Hall'].
    split.
    + exists (List.length evs + n)%nat.
      rewrite Hn, Hall, firstn_app_2. now rewrite app_assoc.
    + intros b Hb. rewrite (Hall' b Hb), Hall. now rewrite app_assoc.
  - injection Hrun as <- <-.
    destruct (Hm _ _ _ Em) as [[n Hn] _].
    split; [| intros a [=]].
    exists (Nat.min n (List.length evs)). now rewrite <- firstn_prefix_app.
Qed.

Lemma plays_read_acceleration : plays (_read_acceleration W) [Board read_data].
Proof.
  unfold _read_acceleration. fold read_data.
  change [Board read_data] with ([Board read_data] ++ []).
  apply plays_bind; [apply plays_board_call | intros; apply plays_lift].
Qed.

Lemma try_block_plays : plays (try_block W) protocol.
Proof.
  assert (H : exists evs, plays (try_block W) evs /\ evs = protocol).
  { eexists. split.
    - unfold try_block, _configure_accelerometer, _perform_self_test, _actuator_test.
      repeat first
        [ apply plays_set_test_passed
        | apply plays_lift
        | apply plays_read_acceleration
        | apply plays_new_board
        | apply plays_board_call
        | apply plays_record
        | eapply plays_bind; [| intros ?] ].
    - reflexivity. }
  destruct H as (evs & H & <-). exact H.
Qed.

End Plays.

(** X2.  Whatever the fixture does, the trace of a run is the clock read,
    a prefix of the fixed protocol, the second clock read, the one print,
    and the power-off when there is a board: the script never issues a
    call outside the protocol or out of its order.  A run that passes has
    played the whole protocol. *)
Theorem run_follows_protocol (W : world) :
  let final := snd (main W) in
  exists (n : nat) (line : text),
    trace final =
      Clock :: firstn n protocol
        ++ Clock :: Print line
        :: (if board final then [Board (turn_off_ps "3V3")] else []) /\
    (test_passed final = true -> firstn n protocol = protocol).
Proof.
  intros final. subst final. rewrite run_test_cases.
  destruct (try_block W (started W)) as [[[] | e] s1] eqn:Et;
    destruct (try_block_plays W _ _ _ Et) as [[n Hn] Hall];
    destruct (try_block_frame _ _ _ _ Et) as (evs & _ & _ & _ & _ & _ & P);
    cbn [snd]; unfold after_finally.
  - exists (List.length protocol). eexists.
    rewrite firstn_all. split; [| reflexivity].
    destruct (board s1) eqn:Hb; cbn [record trace board]; rewrite ?Hb;
      rewrite (Hall tt eq_refl); cbn [started set_start_time record trace __init__ app];
      rewrite <- ?app_assoc; reflexivity.
  - exists n. eexists. split.
    + cbn [board set_failure_reason].
      destruct (board s1) eqn:Hb; cbn [record trace board set_failure_reason];
        rewrite ?Hb, Hn; cbn [started set_start_time record trace __init__ app];
        rewrite <- ?app_assoc; reflexivity.
    + cbn in P.
      destruct (board (set_failure_reason (format_exc e) s1));
        cbn [record test_passed set_failure_reason]; rewrite P; discriminate.
Qed.

(* ------------------------------------------------------------------ *)
(** ** When a run passes *)

Ltac run_cbn H :=
  cbv [bind ret lift update new_board board_call time_sleep record set_board
       set_start_time set_test_passed __init__ board trace start_time
       test_passed failure_reason app] in H.

Lemma try_block_returns_inv W s1 :
  try_block W (started W) = (Return tt, s1) ->
  fixture_answers W = true /\
  exists baseline st_reading climb turn drop,
    reading W 9 = Return baseline /\ reading W 12 = Return st_reading /\
    self_test_evaluate baseline st_reading = Return tt /\
    reading W 15 = Return climb /\ _check_slow_climb climb = Return tt /\
    reading W 17 = Return turn /\ _check_sharp_turn turn = Return tt /\
    reading W 19 = Return drop /\ _check_quick_drop drop = Return tt.
Proof.
  intros H.
  unfold try_block, _configure_accelerometer, _perform_self_test, _actuator_test,
    _read_acceleration, started in H.
  run_cbn H.
  repeat match type of H with
         | context [reply W ?tr ?c] =>
             destruct (reply W tr c) eqn:?; run_cbn H; [| discriminate H]
         | context [decode_acceleration ?d] =>
             destruct (decode_acceleration d) eqn:?; run_cbn H; [| discriminate H]
         | context [self_test_evaluate ?b ?r] =>
             destruct (self_test_evaluate b r) as [[] |] eqn:?; run_cbn H;
             [| discriminate H]
         | context [_check_slow_climb ?r] =>
             destruct (_check_slow_climb r) as [[] |] eqn:?; run_cbn H;
             [| discriminate H]
         | context [_check_sharp_turn ?r] =>
             destruct (_check_sharp_turn r) as [[] |] eqn:?; run_cbn H;
             [| discriminate H]
         | context [_check_quick_drop ?r] =>
             destruct (_check_quick_drop r) as [[] |] eqn:?; run_cbn H;
             [| discriminate H]
         end.
  clear H. split.
  - unfold fixture_answers, answered.
    cbn [protocol List.length seq forallb nth_error firstn].
    unfold read_data, write_register.
    repeat match goal with
           | E : reply W ?t ?c = _ |- context [reply W ?t ?c] => rewrite E
           end.
    reflexivity.
  - unfold reading. cbn [protocol firstn]. unfold read_data, write_register.
    repeat match goal with
           | E : reply W ?t ?c = _ |- context [reply W ?t ?c] => rewrite E
           end.
    do 5 eexists. repeat split; eassumption.
Qed.

Lemma try_block_returns W :
  fixture_answers W = true ->
  forall baseline st_reading climb turn drop,
    reading W 9 = Return baseline -> reading W 12 = Return st_reading ->
    self_test_evaluate baseline st_reading = Return tt ->
    reading W 15 = Return climb -> _check_slow_climb climb = Return tt ->
    reading W 17 = Return turn -> _check_sharp_turn turn = Return tt ->
    reading W 19 = Return drop -> _check_quick_drop drop = Return tt ->
    exists s1, try_block W (started W) = (Return tt, s1).
Proof.
  intros Hans baseline st_reading climb turn drop R9 R12 Hst R15 Hc R17 Ht R19 Hd.
  unfold fixture_answers, answered in Hans.
  cbn [protocol List.length seq forallb nth_error firstn] in Hans.
  unfold reading in R9, R12, R15, R17, R19.
  cbn [protocol firstn] in R9, R12, R15, R17, R19.
  unfold read_data, write_register in *.
  repeat match type of Hans with
         | context [reply W ?tr ?c] =>
             destruct (reply W tr c) eqn:?; cbn [andb] in Hans; [| discriminate Hans]
         end.
  unfold try_block, _configure_accelerometer, _perform_self_test, _actuator_test,
    _read_acceleration, started.
  cbv [bind ret lift update new_board board_call time_sleep record set_board
       set_start_time set_test_passed __init__ board trace start_time
       test_passed failure_reason app].
  repeat match goal with
         | E : reply W ?t ?c = _ |- context [reply W ?t ?c] => rewrite E
         | E : decode_acceleration ?d = _ |- context [decode_acceleration ?d] => rewrite E
         end.
  rewrite Hst, Hc, Ht, Hd. eexists. reflexivity.
Qed.

Lemma pass_iff_try_block_returns W :
  test_passed (snd (main W)) = true <->
  exists s1, try_block W (started W) = (Return tt, s1).
Proof.
  rewrite run_test_cases.
  destruct (try_block W (started W)) as [[[] | e] s1] eqn:Et;
    destruct (try_block_frame _ _ _ _ Et) as (evs & _ & _ & _ & _ & _ & P);
    cbn [snd]; unfold after_finally.
  - split; [eauto |]. intros _.
    destruct (board s1); cbn [record test_passed]; exact P.
  - cbn in P. split.
    + destruct (board (set_failure_reason (format_exc e) s1));
        cbn [record test_passed set_failure_reason]; rewrite P; discriminate.
    + intros [s [=]].
Qed.

(** X3.  A run from a fresh tester passes exactly when the fixture
    returns from every call of the protocol, the five samples read decode,
    the baseline and stimulated samples pass the self-test evaluation, and
    the samples read after the three motions pass the slow-climb, sharp-turn
    and quick-drop checks, in that order. *)
Theorem run_passes_iff (W : world) :
  test_passed (snd (main W)) = true <->
  fixture_answers W = true /\
  exists baseline st_reading climb turn drop,
    reading W 9 = Return baseline /\ reading W 12 = Return st_reading /\
    self_test_evaluate baseline st_reading = Return tt /\
    reading W 15 = Return climb /\ _check_slow_climb climb = Return tt /\
    reading W 17 = Return turn /\ _check_sharp_turn turn = Return tt /\
    reading W 19 = Return drop /\ _check_quick_drop drop = Return tt.
Proof.
  rewrite pass_iff_try_block_returns. split.
  - intros [s1 H]. exact (try_block_returns_inv _ _ H).
  - intros (Hans & b & r & c & t & d & R9 & R12 & Hst & R15 & Hc & R17 & Ht & R19 & Hd).
    exact (try_block_returns W Hans b r c t d R9 R12 Hst R15 Hc R17 Ht R19 Hd).
Qed.

(** X8.  After a run from a fresh tester the two verdict fields agree:
    [test_passed] is set exactly when no [failure_reason] was recorded. *)
Theorem verdict_fields_agree (W : world) :
  test_passed (snd (main W)) = true <-> failure_reason (snd (main W)) = None.
Proof.
  rewrite run_test_cases.
  destruct (try_block W (started W)) as [[[] | e] s1] eqn:Et;
    destruct (try_block_frame _ _ _ _ Et) as (evs & _ & _ & _ & _ & R & P);
    cbn [snd]; unfold after_finally.
  - destruct (board s1); cbn [record test_passed failure_reason];
      rewrite P, R; split; reflexivity.
  - cbn in P.
    destruct (board (set_failure_reason (format_exc e) s1));
      cbn [record test_passed failure_reason set_failure_reason];
      rewrite P; split; discriminate.
Qed.

(* ------------------------------------------------------------------ *)
(** ** Counts and accelerations *)

Lemma twos_complement16_inj lo hi lo' hi' :
  0 <= lo < 256 -> 0 <= hi < 256 -> 0 <= lo' < 256 -> 0 <= hi' < 256 ->
  twos_complement16 lo hi = twos_complement16 lo' hi' -> lo = lo' /\ hi = hi'.
Proof.
  intros Hlo Hhi Hlo' Hhi'.
  rewrite <- !unpack_h_pair by assumption.
  unfold unpack_h, signed16, int_from_bytes_little. cbn [fold_right].
  destruct (Z.ltb_spec (lo + 256 * (hi + 256 * 0)) 32768);
    destruct (Z.ltb_spec (lo' + 256 * (hi' + 256 * 0)) 32768); lia.
Qed.

(** A sample that decodes comes from six bytes, pair by pair. *)
Lemma decode_acceleration_inv data a :
  decode_acceleration data = Return a ->
  exists b0 b1 b2 b3 b4 b5,
    data = [b0; b1; b2; b3; b4; b5] /\
    forallb is_byte [b0; b1; b2; b3; b4; b5] = true /\
    a = sample (float_of_int (twos_complement16 b0 b1) * ACCEL_SCALE)%float
               (float_of_int (twos_complement16 b2 b3) * ACCEL_SCALE)%float
               (float_of_int (twos_complement16 b4 b5) * ACCEL_SCALE)%float.
Proof.
  intros H.
  assert (Hb : forallb is_byte data = true).
  { unfold decode_acceleration, bytes in H.
    destruct (forallb is_byte data); [reflexivity | discriminate H]. }
  assert (Hl : List.length data = 6%nat).
  { unfold decode_acceleration, bytes, struct_unpack_hhh in H. rewrite Hb in H.
    cbn [obind] in H.
    destruct (Z.eqb_spec (Z.of_nat (List.length data)) 6); [lia | discriminate H]. }
  destruct data as [| b0 [| b1 [| b2 [| b3 [| b4 [| b5 [| b6 data]]]]]]];
    try discriminate Hl.
  exists b0, b1, b2, b3, b4, b5. split; [reflexivity |]. split; [exact Hb |].
  rewrite (decode_acceleration_six _ _ _ _ _ _ Hb) in H.
  now injection H as <-.
Qed.

Lemma counts_bounded :
  forallb (fun n => (-127.8 <=? float_of_int n * ACCEL_SCALE)%float
                    && (float_of_int n * ACCEL_SCALE <=? 127.8)%float)
          int16_counts = true.
Proof. vm_compute. reflexivity. Qed.

Lemma counts_unmoved_fail :
  forallb (fun n =>
             let d := (float_of_int n * ACCEL_SCALE - float_of_int n * ACCEL_SCALE)%float in
             negb ((-1.2 <=? d)%float && (d <=? -0.9)%float))
          int16_counts = true.
Proof. vm_compute. reflexivity. Qed.

Lemma counts_recovered :
  forallb (fun n => count_of (float_of_int n * ACCEL_SCALE) =? n) int16_counts = true.
Proof. vm_compute. reflexivity. Qed.

(** X5.  Every sample that decodes has exactly the keys x, y, z, and each
    value lies within [-127.8, 127.8]: a decoded acceleration is never a
    NaN or an infinity. *)
Theorem decoded_sample_bounded (data : list Z) (a : dict float) :
  decode_acceleration data = Return a ->
  exists x y z,
    a = sample x y z /\
    in_band (-127.8) 127.8 x /\ in_band (-127.8) 127.8 y /\ in_band (-127.8) 127.8 z.
Proof.
  intros H. destruct (decode_acceleration_inv _ _ H) as (b0 & b1 & b2 & b3 & b4 & b5 & _ & _ & ->).
  do 3 eexists. split; [reflexivity |].
  unfold in_band.
  repeat split;
    match goal with |- context [twos_complement16 ?lo ?hi] =>
      pose proof (for_all_counts _ counts_bounded _ (twos_complement16_range lo hi)) as Hc
    end;
    cbv beta in Hc; apply andb_true_iff in Hc; destruct Hc; assumption.
Qed.

Lemma decoded_sample_bounded_witness :
  exists x y z,
    sample (float_of_int 256 * ACCEL_SCALE)%float
           (float_of_int (-1) * ACCEL_SCALE)%float
           (float_of_int (-32768) * ACCEL_SCALE)%float = sample x y z /\
    in_band (-127.8) 127.8 x /\ in_band (-127.8) 127.8 y /\ in_band (-127.8) 127.8 z.
Proof.
  exact (decoded_sample_bounded [0; 1; 255; 255; 0; 128] _ eq_refl).
Defined.

(** X6.  The conversion to g loses nothing: dividing by the scale and
    rounding gives back the count of every 16-bit value, and two buffers
    that decode to the same sample are the same buffer. *)
Theorem acceleration_round_trip :
  (forall n, -32768 <= n <= 32767 -> count_of (float_of_int n * ACCEL_SCALE) = n) /\
  (forall data data' a,
     decode_acceleration data = Return a ->
     decode_acceleration data' = Return a ->
     data = data').
Proof.
  assert (Hback : forall n, -32768 <= n <= 32767 ->
                            count_of (float_of_int n * ACCEL_SCALE) = n).
  { intros n Hn. apply Z.eqb_eq.
    exact (for_all_counts _ counts_recovered n Hn). }
  split; [exact Hback |].
  intros data data' a H H'.
  destruct (decode_acceleration_inv _ _ H) as (b0 & b1 & b2 & b3 & b4 & b5 & -> & Hb & Ha).
  destruct (decode_acceleration_inv _ _ H') as (c0 & c1 & c2 & c3 & c4 & c5 & -> & Hc & Ha').
  rewrite Ha in Ha'. unfold sample in Ha'. injection Ha' as Ex Ey Ez.
  apply (f_equal count_of) in Ex, Ey, Ez.
  rewrite !Hback in Ex, Ey, Ez by apply twos_complement16_range.
  cbn [forallb] in Hb, Hc.
  repeat match goal with
         | Hx : _ && _ = true |- _ => apply andb_true_iff in Hx; destruct Hx
         | Hx : is_byte _ = true |- _ => apply is_byte_range in Hx
         end.
  apply twos_complement16_inj in Ex, Ey, Ez; try assumption.
  destruct Ex, Ey, Ez. congruence.
Qed.

(* ------------------------------------------------------------------ *)
(** ** A sensor that does not answer the self-test *)

Lemma self_test_same_sample_fails data a :
  decode_acceleration data = Return a ->
  exists d, self_test_evaluate a a =
            Raise (ValueError (self_test_message "x" d (-1.2) (-0.9))).
Proof.
  intros H. destruct (decode_acceleration_inv _ _ H) as (b0 & b1 & b2 & b3 & b4 & b5 & _ & _ & ->).
  rewrite self_test_evaluate_sample. cbv zeta.
  pose proof (for_all_counts _ counts_unmoved_fail _ (twos_complement16_range b0 b1)) as Hx.
  cbv beta zeta in Hx. rewrite Hx. eexists. reflexivity.
Qed.

(** X4.  When the fixture returns the same bytes for the stimulated read
    as for the baseline read, the run does not pass: a sensor on which
    the self-test bit has no effect is always rejected. *)
Theorem unresponsive_self_test_fails (W : world) :
  reply W (Clock :: firstn 12 protocol) read_data =
    reply W (Clock :: firstn 9 protocol) read_data ->
  test_passed (snd (main W)) = false.
Proof.
  intros Hsame. destruct (test_passed (snd (main W))) eqn:Hp; [exfalso | reflexivity].
  apply pass_iff_try_block_returns in Hp. destruct Hp as [s1 Hp].
  destruct (try_block_returns_inv _ _ Hp) as (_ & b & r & _ & _ & _ & R9 & R12 & Hst & _).
  unfold reading in R9, R12. rewrite Hsame in R12.
  destruct (reply W (Clock :: firstn 9 protocol) read_data) as [data | descr];
    [| discriminate R9].
  assert (b = r) by congruence. subst r.
  destruct (self_test_same_sample_fails _ _ R9) as [d Hd]. congruence.
Qed.

Lemma unresponsive_self_test_fails_witness :
  test_passed (snd (main stuck_sensor)) = false.
Proof. exact (unresponsive_self_test_fails stuck_sensor eq_refl). Defined.

(* ------------------------------------------------------------------ *)
(** ** A tester used again *)

Lemma run_test_cases_any W s :
  run_test W s =
  let t0 := clock W (trace s) in
  match try_block W (set_start_time t0 (record Clock s)) with
  | (Return _, s1) => (Return tt, after_finally W t0 s1)
  | (Raise e, s1) =>
      (Return tt, after_finally W t0 (set_failure_reason (format_exc e) s1))
  end.
Proof.
  unfold run_test, bind, time_time, update, try_finally, try_except. cbv zeta.
  destruct (try_block W (set_start_time (clock W (trace s)) (record Clock s)))
    as [[[] | e] s1] eqn:Et;
    destruct (try_block_frame _ _ _ _ Et) as (evs & _ & _ & S & _).
  - rewrite (finally_block_spec W (clock W (trace s))) by (rewrite S; reflexivity).
    reflexivity.
  - rewrite (finally_block_spec W (clock W (trace s))) by (cbn; rewrite S; reflexivity).
    reflexivity.
Qed.

(** X7.  [run_test] never clears [test_passed].  Run on a tester whose
    [test_passed] is already set (one that has passed before), it returns
    without raising, leaves the flag set and prints the PASSED line, also
    when a step of this run raised. *)
Theorem stale_pass_flag (W : world) (s : tester) :
  test_passed s = true ->
  let final := snd (run_test W s) in
  fst (run_test W s) = Return tt /\
  test_passed final = true /\
  exists elapsed,
    printed (trace final) =
      printed (trace s) ++ [[Lit "TEST PASSED in "; Fix2 elapsed; Lit " sec"]].
Proof.
  intros Hs final. subst final. rewrite run_test_cases_any. cbv zeta.
  destruct (try_block W (set_start_time (clock W (trace s)) (record Clock s)))
    as [[[] | e] s1] eqn:Et;
    destruct (try_block_frame _ _ _ _ Et) as (evs & T & Q & _ & _ & _ & P);
    destruct (body_events_quiet _ Q) as [Hp _];
    cbn [fst snd]; (split; [reflexivity |]);
    cbn [test_passed set_start_time record] in P; rewrite ?Hs in P;
    unfold after_finally, verdict;
    cbn [board set_failure_reason test_passed failure_reason trace];
    rewrite P;
    (split; [destruct (board s1); cbn [record test_passed set_failure_reason]; exact P |]);
    eexists;
    destruct (board s1); cbn [record trace set_failure_reason];
    rewrite T; cbn [set_start_time record trace];
    rewrite !printed_app, Hp; cbn [printed app]; rewrite ?app_nil_r; reflexivity.
Qed.

Lemma stale_pass_flag_witness :
  let s := snd (main bench_once) in
  let final := snd (run_test bench_once s) in
  fst (run_test bench_once s) = Return tt /\
  test_passed final = true /\
  exists elapsed,
    printed (trace final) =
      printed (trace s) ++ [[Lit "TEST PASSED in "; Fix2 elapsed; Lit " sec"]].
Proof.
  intros s. apply (stale_pass_flag bench_once s). vm_compute. reflexivity.
Defined.

(** The second run on the once-only bench fails at the constructor and
    records the failure, yet prints PASSED a second time. *)
Example second_run_prints_passed :
  let final := snd (run_test bench_once (snd (main bench_once))) in
  failure_reason final = Some [Traceback (BoardError "board busy")] /\
  printed (trace final) =
    [[Lit "TEST PASSED in "; Fix2 21; Lit " sec"];
     [Lit "TEST PASSED in "; Fix2 2; Lit " sec"]].
Proof. split; vm_compute; reflexivity. Qed.

(* ------------------------------------------------------------------ *)
(** ** The mode of the sensor during the motions *)

(** X9.  In every run, each actuator motion is commanded after a write
    that put the data-format register back to normal mode: no motion
    sample is ever taken with the self-test bit still set. *)
Theorem motions_in_normal_mode (W : world) :
  moves_in_normal_mode (trace (snd (main W))) = true.
Proof.
  assert (H : exists n line (off : bool),
             trace (snd (main W)) =
               Clock :: firstn n protocol
                 ++ Clock :: Print line
                 :: (if off then [Board (turn_off_ps "3V3")] else [])).
  { rewrite run_test_cases.
    destruct (try_block W (started W)) as [[[] | e] s1] eqn:Et;
      destruct (try_block_plays W _ _ _ Et) as [[n Hn] _];
      exists n; cbn [snd]; unfold after_finally;
      cbn [board set_failure_reason];
      eexists; exists (board s1);
      destruct (board s1); cbn [record trace set_failure_reason];
      rewrite Hn; cbn [started set_start_time record trace __init__ app];
      rewrite <- ?app_assoc; reflexivity. }
  destruct H as (n & line & off & ->).
  unfold moves_in_normal_mode.
  do 20 (destruct n as [| n]; [destruct off; reflexivity |]).
  cbn [firstn protocol]. rewrite firstn_nil. destruct off; reflexivity.
Qed.

(** The check does tell a bad trace: a motion right after the self-test
    write, or with no data-format write at all, is refused. *)
Example motion_in_self_test_mode_refused :
  moves_in_normal_mode
    [Board (write_register REG_DATA_FORMAT DATA_FORMAT_SELF_TEST);
     Board (actuator_move "slow_climb")] = false /\
  moves_in_normal_mode [Board (actuator_move "slow_climb")] = false.
Proof. split; reflexivity. Qed.

